(** * mlagents.plugins.stats_writer: discovery of StatsWriter plugins

    A shallow embedding of [ml-agents/mlagents/plugins/stats_writer.py]:
    [is_jsonable], [to_json_serializable], [get_default_stats_writers] and
    [register_stats_writer_plugins], over a small model of the Python values
    the module handles, and the properties of the module's specification. *)

From Stdlib Require Import ZArith Ascii String List Lia.
From stdpp Require Import base option list strings pretty gmap.

Local Open Scope string_scope.

(** ** Exceptions and results *)

(** The exceptions the module can meet.  [Other] stands for whatever else
    third-party code raises; [except BaseException] catches all of them. *)
Inductive exn : Type :=
| AttributeError
| NameError
| TypeError
| KeyError
| ValueError
| Other (name : string).

(** The outcome of an evaluation: a value, an exception, or [Opaque] when the
    run reaches a call whose outcome the model does not determine (calling
    an opaque callable).  [Opaque] is no exception: no handler catches it,
    so that no theorem about a value or about an exception speaks of such
    a run. *)
Inductive result (A : Type) : Type :=
| Ok (a : A)
| Raise (e : exn)
| Opaque.
Arguments Ok {A} a.
Arguments Raise {A} e.
Arguments Opaque {A}.

#[export] Instance result_ret : MRet result := fun A a => Ok a.
#[export] Instance result_bind : MBind result := fun A B k r =>
  match r with
  | Ok a => k a
  | Raise e => Raise e
  | Opaque => Opaque
  end.

(** ** Python values *)

(** The values a RunOptions is made of.  A [str] is a sequence of code points;
    the model keeps the code points below 256, one per character.  A [float]
    is carried by its [repr], the only thing the module does with one.  A
    [dict] keeps its items in insertion order.  An instance carries what
    [str] and [repr] give for it and its namespace: the names [dir] lists,
    each with the value [getattr] returns; a method shows there as a
    [PyCallable]. *)
#[warnings="-register-all"]
Inductive pyval : Type :=
| PyNone
| PyBool (b : bool)
| PyInt (z : Z)
| PyFloat (repr : string)
| PyStr (s : string)
| PyList (l : list pyval)
| PyDict (items : list (pyval * pyval))
| PyObj (str_form repr_form : string) (attrs : list (string * pyval))
| PyCallable (repr_form : string).

Abbreviation dict := (list (pyval * pyval)).

(** ** [repr] and [str] *)

Definition dquote : ascii := "034"%char.
Definition squote : ascii := "039"%char.
Definition backslash : ascii := "092"%char.

Definition hex_digit (n : N) : ascii :=
  ascii_of_N (if (n <? 10)%N then 48 + n else 87 + n)%N.

(** The two lower-case hexadecimal digits of a code point below 256. *)
Definition hex2 (c : ascii) : string :=
  let n := N_of_ascii c in
  String (hex_digit (n / 16)) (String (hex_digit (n mod 16)) EmptyString).

Fixpoint str_contains (c : ascii) (s : string) : bool :=
  match s with
  | EmptyString => false
  | String a r => Ascii.eqb a c || str_contains c r
  end.

(** [repr] of a str quotes with ['], or with the double quote when the text
    holds a ['] and no double quote. *)
Definition repr_quote (s : string) : ascii :=
  if str_contains squote s && negb (str_contains dquote s) then dquote else squote.

Definition repr_char (q c : ascii) : string :=
  let n := N_of_ascii c in
  if Ascii.eqb c q || Ascii.eqb c backslash then String backslash (String c EmptyString)
  else if (n =? 9)%N then String backslash "t"
  else if (n =? 10)%N then String backslash "n"
  else if (n =? 13)%N then String backslash "r"
  else if (n <? 32)%N || (n =? 127)%N then String backslash ("x" +:+ hex2 c)
  else if (n <? 127)%N then String c EmptyString
  else if ((n <=? 160)%N || (n =? 173)%N) then String backslash ("x" +:+ hex2 c)
  else String c EmptyString.

Fixpoint repr_chars (q : ascii) (s : string) : string :=
  match s with
  | EmptyString => EmptyString
  | String c r => repr_char q c +:+ repr_chars q r
  end.

Definition repr_str (s : string) : string :=
  let q := repr_quote s in
  String q (repr_chars q s +:+ String q EmptyString).

Definition join (sep : string) (l : list string) : string := String.concat sep l.

Fixpoint py_repr (v : pyval) : string :=
  match v with
  | PyNone => "None"
  | PyBool b => if b then "True" else "False"
  | PyInt z => pretty z
  | PyFloat r => r
  | PyStr s => repr_str s
  | PyList l => "[" +:+ join ", " (List.map py_repr l) +:+ "]"
  | PyDict items =>
      "{" +:+ join ", " (List.map (fun kv => py_repr (fst kv) +:+ ": " +:+ py_repr (snd kv)) items)
          +:+ "}"
  | PyObj _ r _ => r
  | PyCallable r => r
  end.

(** [str(v)]: the text itself for a str, [__str__] for an instance, [repr]
    for the rest. *)
Definition py_str (v : pyval) : string :=
  match v with
  | PyStr s => s
  | PyObj s _ _ => s
  | _ => py_repr v
  end.

(** The value a list of named things holds under a name, the first one. *)
Fixpoint lookup_name {A : Type} (name : string) (l : list (string * A)) : option A :=
  match l with
  | [] => None
  | (n, a) :: r => if String.eqb n name then Some a else lookup_name name r
  end.

(** Truth value, as [not] takes it.  The built-in types carry their own.
    For an instance [not] asks the [__bool__] of its class and, without
    one, its [__len__]: what either returns is beyond the model, so an
    instance that lists one of them has a truth value the model does not
    determine; an instance with neither is true.  A callable may be a
    function or an instance of a class with [__call__], whose [__bool__]
    is not known either. *)
Definition py_truthy (v : pyval) : result bool :=
  match v with
  | PyNone => Ok false
  | PyBool b => Ok b
  | PyInt z => Ok (negb (z =? 0)%Z)
  | PyFloat r => Ok (negb (String.eqb r "0.0" || String.eqb r "-0.0"))
  | PyStr s => Ok (negb (String.eqb s ""))
  | PyList l => Ok (match l with [] => false | _ => true end)
  | PyDict d => Ok (match d with [] => false | _ => true end)
  | PyObj _ _ attrs =>
      match lookup_name "__bool__" attrs, lookup_name "__len__" attrs with
      | None, None => Ok true
      | _, _ => Opaque
      end
  | PyCallable _ => Opaque
  end.

(** [not v] *)
Definition py_not (v : pyval) : result bool :=
  truth ← py_truthy v; Ok (negb truth).

Definition callable (v : pyval) : bool :=
  match v with
  | PyCallable _ => true
  | _ => false
  end.

(** ** Attributes: [getattr] and [dir] *)

(** The namespace of a value.  For an instance it is what the instance
    carries.  For the built-in types only the public data attributes are
    listed: every other name [dir] gives on them is a method or a
    double-underscore name, which [get_attributes] drops, and the only one
    this module reads is the [items] of a dict, which [items] below
    handles. *)
Definition namespace (v : pyval) : list (string * pyval) :=
  match v with
  | PyObj _ _ attrs => attrs
  | PyInt z =>
      [("denominator", PyInt 1); ("imag", PyInt 0); ("numerator", PyInt z); ("real", PyInt z)]
  | PyBool b =>
      [("denominator", PyInt 1); ("imag", PyInt 0);
       ("numerator", PyInt (Z.b2z b)); ("real", PyInt (Z.b2z b))]
  | PyFloat r => [("imag", PyFloat "0.0"); ("real", PyFloat r)]
  | _ => []
  end.

Definition getattr (v : pyval) (name : string) : result pyval :=
  match lookup_name name (namespace v) with
  | Some a => Ok a
  | None => Raise AttributeError
  end.

Fixpoint insert_name (a : string) (l : list string) : list string :=
  match l with
  | [] => [a]
  | b :: r =>
      match String.compare a b with
      | Lt => a :: b :: r
      | Eq => b :: r
      | Gt => b :: insert_name a r
      end
  end.

(** [dir(v)]: the names of the namespace, sorted, each once. *)
Definition dir (v : pyval) : list string :=
  foldr insert_name [] (List.map fst (namespace v)).

(** Calling a value with no argument: an opaque callable is outside the
    model, anything else is not callable. *)
Definition call0 (f : pyval) : result pyval :=
  match f with
  | PyCallable _ => Opaque
  | _ => Raise TypeError
  end.

(** [v.items()] as the [for] loop consumes it: the items of a dict in
    insertion order; on any other value the attribute is looked up and
    called. *)
Definition items (v : pyval) : result dict :=
  match v with
  | PyDict d => Ok d
  | _ => f ← getattr v "items"; _ ← call0 f; Opaque
  end.

(** ** Dictionaries *)

(** Equality of keys.  The keys of every dict this module builds are str
    (attribute names and f-strings); the other cases follow [==] on the
    scalars, without the equality of an int with a float and without the
    identity of instances. *)
Definition key_eqb (a b : pyval) : bool :=
  match a, b with
  | PyStr s, PyStr t => String.eqb s t
  | PyNone, PyNone => true
  | PyBool x, PyBool y => Bool.eqb x y
  | PyInt x, PyInt y => (x =? y)%Z
  | PyBool x, PyInt y => (Z.b2z x =? y)%Z
  | PyInt x, PyBool y => (x =? Z.b2z y)%Z
  | PyFloat r, PyFloat r' => String.eqb r r'
  | _, _ => false
  end.

(** [d[k] = v]: an existing key keeps its place (and the key object), a new
    one goes last. *)
Fixpoint dict_setitem (k v : pyval) (d : dict) : dict :=
  match d with
  | [] => [(k, v)]
  | (k', v') :: r =>
      if key_eqb k' k then (k', v) :: r else (k', v') :: dict_setitem k v r
  end.

Fixpoint dict_get (k : pyval) (d : dict) : option pyval :=
  match d with
  | [] => None
  | (k', v') :: r => if key_eqb k' k then Some v' else dict_get k r
  end.

(** [d.update(other)] *)
Definition dict_update (d other : dict) : dict :=
  fold_left (fun acc kv => dict_setitem (fst kv) (snd kv) acc) other d.

(** A dict comprehension [{key(x): val(x) for x in l}]. *)
Definition dict_of (l : dict) : dict := dict_update [] l.

(** Helper function to get attributes of an object as a dictionary:
    [{attr: getattr(obj, attr) for attr in dir(obj)
      if not callable(getattr(obj, attr)) and not attr.startswith("__")}] *)
Fixpoint get_attributes_from (obj : pyval) (names : list string) (acc : dict) : result dict :=
  match names with
  | [] => Ok acc
  | attr :: rest =>
      a ← getattr obj attr;
      if negb (callable a) && negb (String.prefix "__" attr)
      then v ← getattr obj attr;
           get_attributes_from obj rest (dict_setitem (PyStr attr) v acc)
      else get_attributes_from obj rest acc
  end.

Definition get_attributes (obj : pyval) : result dict :=
  get_attributes_from obj (dir obj) [].

(** ** The JSON encoder and the string scanner of the decoder *)

(** [json.dumps] of the standard library with its default options
    ([ensure_ascii], [allow_nan], no [default] hook), which is what
    [is_jsonable] names. *)
Definition json_escape_char (c : ascii) : string :=
  let n := N_of_ascii c in
  if Ascii.eqb c dquote || Ascii.eqb c backslash then String backslash (String c EmptyString)
  else if (n =? 8)%N then String backslash "b"
  else if (n =? 9)%N then String backslash "t"
  else if (n =? 10)%N then String backslash "n"
  else if (n =? 12)%N then String backslash "f"
  else if (n =? 13)%N then String backslash "r"
  else if (32 <=? n)%N && (n <=? 126)%N then String c EmptyString
  else String backslash ("u00" +:+ hex2 c).

Fixpoint json_escape (s : string) : string :=
  match s with
  | EmptyString => EmptyString
  | String c r => json_escape_char c +:+ json_escape r
  end.

Definition json_string (s : string) : string :=
  String dquote (json_escape s +:+ String dquote EmptyString).

Definition json_float (r : string) : string :=
  if String.eqb r "nan" then "NaN"
  else if String.eqb r "inf" then "Infinity"
  else if String.eqb r "-inf" then "-Infinity"
  else r.

(** The keys of an object: str, or a scalar turned into text; anything else
    is a [TypeError]. *)
Definition json_key (k : pyval) : result string :=
  match k with
  | PyStr s => Ok s
  | PyBool b => Ok (if b then "true" else "false")
  | PyNone => Ok "null"
  | PyInt z => Ok (pretty z)
  | PyFloat r => Ok (json_float r)
  | _ => Raise TypeError
  end.

Fixpoint result_all {A : Type} (l : list (result A)) : result (list A) :=
  match l with
  | [] => Ok []
  | r :: rest => a ← r; t ← result_all rest; Ok (a :: t)
  end.

Fixpoint json_dumps (v : pyval) : result string :=
  match v with
  | PyNone => Ok "null"
  | PyBool b => Ok (if b then "true" else "false")
  | PyInt z => Ok (pretty z)
  | PyFloat r => Ok (json_float r)
  | PyStr s => Ok (json_string s)
  | PyList l =>
      texts ← result_all (List.map json_dumps l);
      Ok ("[" +:+ join ", " texts +:+ "]")
  | PyDict d =>
      members ← result_all
        (List.map (fun kv => k ← json_key (fst kv);
                             t ← json_dumps (snd kv);
                             Ok (json_string k +:+ ": " +:+ t)) d);
      Ok ("{" +:+ join ", " members +:+ "}")
  | PyObj _ _ _ => Raise TypeError
  | PyCallable _ => Raise TypeError
  end.

Definition hex_value (c : ascii) : option N :=
  let n := N_of_ascii c in
  if (48 <=? n)%N && (n <=? 57)%N then Some (n - 48)%N
  else if (97 <=? n)%N && (n <=? 102)%N then Some (n - 87)%N
  else if (65 <=? n)%N && (n <=? 70)%N then Some (n - 55)%N
  else None.

Definition hex4 (a b c d : ascii) : option N :=
  x ← hex_value a; y ← hex_value b; z ← hex_value c; t ← hex_value d;
  Some (((x * 16 + y) * 16 + z) * 16 + t)%N.

Definition json_unescape (c : ascii) : option ascii :=
  let n := N_of_ascii c in
  if Ascii.eqb c dquote || Ascii.eqb c backslash || Ascii.eqb c "/"%char then Some c
  else if Ascii.eqb c "b"%char then Some (ascii_of_N 8)
  else if Ascii.eqb c "f"%char then Some (ascii_of_N 12)
  else if Ascii.eqb c "n"%char then Some (ascii_of_N 10)
  else if Ascii.eqb c "r"%char then Some (ascii_of_N 13)
  else if Ascii.eqb c "t"%char then Some (ascii_of_N 9)
  else None.

(** The decoder's scan of a string literal, after its opening quote: the
    text and what follows the closing quote.  A malformed literal is the
    decoder's [ValueError]; an escape of a code point above 255 leaves the
    modelled strings. *)
Fixpoint json_scanstring (s : string) : result (string * string) :=
  match s with
  | EmptyString => Raise ValueError
  | String c r =>
      if Ascii.eqb c dquote then Ok (EmptyString, r)
      else if Ascii.eqb c backslash then
        match r with
        | EmptyString => Raise ValueError
        | String e r1 =>
            if Ascii.eqb e "u"%char then
              match r1 with
              | String h1 (String h2 (String h3 (String h4 r2))) =>
                  match hex4 h1 h2 h3 h4 with
                  | None => Raise ValueError
                  | Some n =>
                      if (n <? 256)%N
                      then p ← json_scanstring r2; Ok (String (ascii_of_N n) (fst p), snd p)
                      else Opaque
                  end
              | _ => Raise ValueError
              end
            else
              match json_unescape e with
              | None => Raise ValueError
              | Some a => p ← json_scanstring r1; Ok (String a (fst p), snd p)
              end
        end
      else if (N_of_ascii c <? 32)%N then Raise ValueError
      else p ← json_scanstring r; Ok (String c (fst p), snd p)
  end.

Definition json_whitespace (c : ascii) : bool :=
  let n := N_of_ascii c in
  (n =? 32)%N || (n =? 9)%N || (n =? 10)%N || (n =? 13)%N.

Fixpoint all_whitespace (s : string) : bool :=
  match s with
  | EmptyString => true
  | String c r => json_whitespace c && all_whitespace r
  end.

(** [json.loads] on a document that is a string literal; the other kinds of
    document are not modelled. *)
Definition json_loads (doc : string) : result pyval :=
  match doc with
  | String c r =>
      if Ascii.eqb c dquote
      then p ← json_scanstring r;
           if all_whitespace (snd p) then Ok (PyStr (fst p)) else Raise ValueError
      else Opaque
  | EmptyString => Raise ValueError
  end.

(** A value is serializer-safe when it goes through the encoder and back
    without an error. *)
Definition serializer_safe (v : pyval) : Prop :=
  exists text v', json_dumps v = Ok text /\ json_loads text = Ok v'.

(** ** The module's namespace *)

(** What the statements at the top of the module bind: the imports, the
    logger and the four functions.  There is no [import json]. *)
Inductive binding : Type :=
| Module (name : string)
| Object (name : string).

Definition module_globals : list (string * binding) :=
  [ ("sys", Module "sys");
    ("List", Object "typing.List");
    ("importlib_metadata", Module "importlib.metadata");
    ("StatsWriter", Object "mlagents.trainers.stats.StatsWriter");
    ("logging_util", Module "mlagents_envs.logging_util");
    ("ML_AGENTS_STATS_WRITER", Object "mlagents.plugins.ML_AGENTS_STATS_WRITER");
    ("RunOptions", Object "mlagents.trainers.settings.RunOptions");
    ("TensorboardWriter", Object "mlagents.trainers.stats.TensorboardWriter");
    ("GaugeWriter", Object "mlagents.trainers.stats.GaugeWriter");
    ("ConsoleWriter", Object "mlagents.trainers.stats.ConsoleWriter");
    ("WandbWriter", Object "mlagents.trainers.stats.WandbWriter");
    ("logger", Object "logger");
    ("is_jsonable", Object "is_jsonable");
    ("to_json_serializable", Object "to_json_serializable");
    ("get_default_stats_writers", Object "get_default_stats_writers");
    ("register_stats_writer_plugins", Object "register_stats_writer_plugins") ].

(** Reading a global name: a name bound nowhere is a [NameError] (no
    built-in is called [json]). *)
Definition load_global (name : string) : result binding :=
  match lookup_name name module_globals with
  | Some b => Ok b
  | None => Raise NameError
  end.

(** [b.dumps(x)]: only the [json] module has the encoder. *)
Definition call_dumps (b : binding) (x : pyval) : result string :=
  match b with
  | Module "json" => json_dumps x
  | _ => Raise AttributeError
  end.

(** ** [is_jsonable] and [to_json_serializable] *)

(** Helper function to check if an object is JSON serializable:
    [try: json.dumps(x); return True / except: return False].  The bare
    [except] catches every exception, the [NameError] of [json] included
    (neither the lookup nor the encoder ever ends in [Opaque]). *)
Definition is_jsonable (x : pyval) : bool :=
  match (json ← load_global "json"; call_dumps json x) with
  | Ok _ => true
  | Raise _ => false
  | Opaque => false
  end.

(** Convert non-JSON serializable items to string. *)
Definition to_json_serializable (d : dict) : dict :=
  fold_left
    (fun new_dict kv =>
       let key := fst kv in
       let value := snd kv in
       let key := if negb (is_jsonable key) then PyStr (py_str key) else key in
       let value := if negb (is_jsonable value) then PyStr (py_str value) else value in
       dict_setitem key value new_dict)
    d [].

(** ** Effects: standard output and the logger *)

Inductive level : Type := DEBUG | WARNING | ERROR.

(** What a run leaves behind: the lines printed and the records handed to
    the logger ([logger.exception] logs at level [ERROR]). *)
Record world : Type := World {
  stdout : list string;
  log : list (level * string)
}.

(** A computation reads and updates the world and ends in a [result]. *)
Definition M (A : Type) : Type := world -> result A * world.

#[export] Instance M_ret : MRet M := fun A a w => (Ok a, w).
#[export] Instance M_bind : MBind M := fun A B k m w =>
  match m w with
  | (Ok a, w') => k a w'
  | (Raise e, w') => (Raise e, w')
  | (Opaque, w') => (Opaque, w')
  end.

Definition lift {A : Type} (r : result A) : M A := fun w => (r, w).

Definition print (line : string) : M unit :=
  fun w => (Ok tt, World (stdout w ++ [line])%list (log w)).

(** The world once a record has gone to the logger. *)
Definition logged (lv : level) (msg : string) (w : world) : world :=
  World (stdout w) (log w ++ [(lv, msg)])%list.

(** [logger.debug], [logger.warning] and [logger.exception], by level. *)
Definition logger_call (lv : level) (msg : string) : M unit :=
  fun w => (Ok tt, logged lv msg w).

(** [try: body / except BaseException: handler] *)
Definition try_except {A : Type} (body : M A) (handler : M A) : M A :=
  fun w =>
    match body w with
    | (Ok a, w') => (Ok a, w')
    | (Raise _, w') => handler w'
    | (Opaque, w') => (Opaque, w')
    end.

(** ** The sinks *)

(** Modelled from the spec: the four built-in sinks of
    [mlagents.trainers.stats], a module that is not among the sources; a
    constructor records its arguments and construction is infallible.
    [Foreign] is any other object a plug-in hands back. *)
Inductive StatsWriter : Type :=
| TensorboardWriter (base_dir : pyval) (clear_past_data : bool) (hidden_keys : list string)
| GaugeWriter
| ConsoleWriter
| WandbWriter (config : dict)
| Foreign (v : pyval).

(** ** [get_default_stats_writers] *)

(** [print(f"{run_options.name = }")] *)
Definition print_attribute (run_options : pyval) (name : string) : M unit :=
  v ← lift (getattr run_options name);
  print ("run_options." +:+ name +:+ " = " +:+ py_repr v).

(** [{f"{prefix}{key}": val for key, val in d.items()}] *)
Definition prefixed (prefix : string) (d : dict) : dict :=
  dict_of (List.map (fun kv => (PyStr (prefix +:+ py_str (fst kv)), snd kv)) d).

(** The body of the loop over [run_options.behaviors.items()]. *)
Definition extract_behavior (extracted_data : dict) (behavior_settings : pyval) : result dict :=
  hyperparameters ← getattr behavior_settings "hyperparameters";
  hyperparams ← get_attributes hyperparameters;
  behavior_data ← get_attributes behavior_settings;
  let extracted_data := dict_update extracted_data (prefixed "" hyperparams) in
  Ok (dict_update extracted_data (prefixed "" behavior_data)).

Fixpoint extract_behaviors (extracted_data : dict) (behaviors : dict) : result dict :=
  match behaviors with
  | [] => Ok extracted_data
  | (behavior_name, behavior_settings) :: rest =>
      extracted_data ← extract_behavior extracted_data behavior_settings;
      extract_behaviors extracted_data rest
  end.

Definition settings_list : list string :=
  ["engine_settings"; "env_settings"; "torch_settings"].

(** The body of the loop over [settings_list]. *)
Definition extract_setting (run_options : pyval) (extracted_data : dict) (setting_name : string)
  : result dict :=
  setting ← getattr run_options setting_name;
  setting_data ← get_attributes setting;
  Ok (dict_update extracted_data (prefixed (setting_name +:+ "_") setting_data)).

Fixpoint extract_settings (run_options : pyval) (extracted_data : dict) (names : list string)
  : result dict :=
  match names with
  | [] => Ok extracted_data
  | setting_name :: rest =>
      extracted_data ← extract_setting run_options extracted_data setting_name;
      extract_settings run_options extracted_data rest
  end.

(** The dictionary [extracted_data] once both loops have run. *)
Definition extract (run_options : pyval) : result dict :=
  behaviors ← getattr run_options "behaviors";
  entries ← items behaviors;
  extracted_data ← extract_behaviors [] entries;
  extract_settings run_options extracted_data settings_list.

(** The flattening of a RunOptions into the map given to the tracker sink:
    both loops, the coercion, and the two prints around it. *)
Definition flatten (run_options : pyval) : M dict :=
  extracted_data ← lift (extract run_options);
  _ ← print ("extracted_data = " +:+ py_repr (PyDict extracted_data));
  let extracted_data := to_json_serializable extracted_data in
  _ ← print ("After serialisation, extracted_data = " +:+ py_repr (PyDict extracted_data));
  mret extracted_data.

Definition hidden_keys : list string := ["Is Training"; "Step"].

Definition get_default_stats_writers (run_options : pyval) : M (list StatsWriter) :=
  checkpoint_settings ← lift (getattr run_options "checkpoint_settings");
  _ ← print_attribute run_options "behaviors";
  _ ← print_attribute run_options "checkpoint_settings";
  _ ← print_attribute run_options "engine_settings";
  _ ← print_attribute run_options "environment_parameters";
  _ ← print_attribute run_options "env_settings";
  _ ← print_attribute run_options "torch_settings";
  extracted_data ← flatten run_options;
  write_path ← lift (getattr checkpoint_settings "write_path");
  resume ← lift (getattr checkpoint_settings "resume");
  clear_past_data ← lift (py_not resume);
  mret [ TensorboardWriter write_path clear_past_data hidden_keys;
         GaugeWriter;
         ConsoleWriter;
         WandbWriter extracted_data ].

(** ** [register_stats_writer_plugins] *)

(** What a plug-in's function returns: a list of sinks, or some other value. *)
Inductive plugin_value : Type :=
| Writers (l : list StatsWriter)
| Value (v : pyval).

Definition plugin_func : Type := pyval -> M plugin_value.

(** An entry point of the host registry: its name and what loading it does. *)
Record EntryPoint : Type := {
  name : string;
  load : M plugin_func
}.

Fixpoint chars (s : string) : list pyval :=
  match s with
  | EmptyString => []
  | String c r => PyStr (String c EmptyString) :: chars r
  end.

(** The elements of a returned value, as [len] and [+=] on a list see it:
    a value without a length is a [TypeError]; an instance that lists
    [__len__] has one the model does not know. *)
Definition elements_of (r : plugin_value) : result (list StatsWriter) :=
  match r with
  | Writers l => Ok l
  | Value (PyList l) => Ok (List.map Foreign l)
  | Value (PyDict d) => Ok (List.map (fun kv => Foreign (fst kv)) d)
  | Value (PyStr s) => Ok (List.map Foreign (chars s))
  | Value (PyObj s r attrs) =>
      match lookup_name "__len__" attrs with
      | Some _ => Opaque
      | None => Raise TypeError
      end
  | Value _ => Raise TypeError
  end.

Section Registry.

(** The namespace key of [mlagents.plugins], a constant declared outside
    the sources. *)
Variable ML_AGENTS_STATS_WRITER : string.

Definition missing_entry_points_message : string :=
  "Unable to find any entry points for " +:+ ML_AGENTS_STATS_WRITER +:+
  ", even the default ones. " +:+
  "Uninstalling and reinstalling ml-agents via pip should resolve. " +:+
  "Using default plugins for now.".

Definition initializing_message (entry_point : EntryPoint) : string :=
  "Initializing StatsWriter plugins: " +:+ name entry_point.

Definition found_message (n : nat) (entry_point : EntryPoint) : string :=
  "Found " +:+ pretty n +:+ " StatsWriters for plugin " +:+ name entry_point.

Definition failure_message (entry_point : EntryPoint) : string :=
  "Error initializing StatsWriter plugins for " +:+ name entry_point +:+
  ". This plugin will not be used.".

(** The [try] block of the loop, giving what it adds to
    [all_stats_writers]. *)
Definition initialize_plugin (run_options : pyval) (entry_point : EntryPoint)
  : M (list StatsWriter) :=
  _ ← logger_call DEBUG (initializing_message entry_point);
  plugin_func ← load entry_point;
  plugin_stats_writers ← plugin_func run_options;
  found ← lift (elements_of plugin_stats_writers);
  _ ← logger_call DEBUG (found_message (length found) entry_point);
  mret found.

(** One turn of the loop: the [try] block and its handler. *)
Definition plugin_turn (run_options : pyval) (all_stats_writers : list StatsWriter)
    (entry_point : EntryPoint) : M (list StatsWriter) :=
  try_except
    (found ← initialize_plugin run_options entry_point;
     mret (all_stats_writers ++ found)%list)
    (_ ← logger_call ERROR (failure_message entry_point);
     mret all_stats_writers).

Fixpoint plugin_loop (run_options : pyval) (all_stats_writers : list StatsWriter)
    (entry_points : list EntryPoint) : M (list StatsWriter) :=
  match entry_points with
  | [] => mret all_stats_writers
  | entry_point :: rest =>
      all_stats_writers ← plugin_turn run_options all_stats_writers entry_point;
      plugin_loop run_options all_stats_writers rest
  end.

(** Registers all StatsWriter plugins (including the default one), and
    evaluates them, and returns the list of all the StatsWriter
    implementations.  [registry] is what [importlib_metadata.entry_points()]
    gives. *)
Definition register_stats_writer_plugins (registry : gmap string (list EntryPoint))
    (run_options : pyval) : M (list StatsWriter) :=
  if bool_decide (ML_AGENTS_STATS_WRITER ∉ dom registry)
  then
    _ ← logger_call WARNING missing_entry_points_message;
    get_default_stats_writers run_options
  else
    entry_points ← lift (match registry !! ML_AGENTS_STATS_WRITER with
                         | Some l => Ok l
                         | None => Raise KeyError
                         end);
    plugin_loop run_options [] entry_points.

End Registry.

(** ** The vocabulary of the specification *)

Definition is_str (v : pyval) : bool :=
  match v with PyStr _ => true | _ => false end.

(** An item whose key and value are both strs. *)
Definition str_item (kv : pyval * pyval) : Prop :=
  is_str (fst kv) = true /\ is_str (snd kv) = true.

(** An item with its key and its value replaced by their string forms. *)
Definition stringify (kv : pyval * pyval) : pyval * pyval :=
  (PyStr (py_str (fst kv)), PyStr (py_str (snd kv))).

(** An item with its key put behind a prefix. *)
Definition rename (p : string) (kv : pyval * pyval) : pyval * pyval :=
  (PyStr (p +:+ py_str (fst kv)), snd kv).

Definition keys (d : dict) : list pyval := List.map fst d.

Definition str_keys (d : dict) : Prop := Forall (fun kv => is_str (fst kv) = true) d.

(** The dicts the flattening builds: str keys, each once. *)
Definition dict_wf (d : dict) : Prop := str_keys d /\ NoDup (keys d).

(** The attributes [get_attributes] keeps: neither invocable nor named with
    two leading underscores. *)
Definition public_attribute (obj : pyval) (k : string) : option pyval :=
  match getattr obj k with
  | Ok a => if negb (callable a) && negb (String.prefix "__" k) then Some a else None
  | _ => None
  end.

(** The names [get_default_stats_writers] reads on a RunOptions. *)
Definition expected_attributes : list string :=
  ["checkpoint_settings"; "behaviors"; "engine_settings"; "environment_parameters";
   "env_settings"; "torch_settings"].

Definition has_attr (v : pyval) (n : string) : bool :=
  match getattr v n with Ok _ => true | _ => false end.

Definition has_hyperparameters (entry : pyval * pyval) : bool :=
  has_attr (snd entry) "hyperparameters".

(** A value whose truth [not] reads off the value itself. *)
Definition has_truth_value (v : pyval) : bool :=
  match py_truthy v with Ok _ => true | _ => false end.

Definition is_flag (checkpoint_settings : pyval) (n : string) : bool :=
  match getattr checkpoint_settings n with
  | Ok flag => has_truth_value flag
  | _ => false
  end.

(** A fully populated RunOptions: the six attributes, [behaviors] a mapping
    whose every behavior has its hyperparameters, and checkpoint settings
    with a write path and a resume flag, a flag being a value that has a
    truth value of its own. *)
Definition fully_populated (run_options : pyval) : bool :=
  forallb (has_attr run_options) expected_attributes
  && match getattr run_options "behaviors" with
     | Ok (PyDict entries) => forallb has_hyperparameters entries
     | _ => false
     end
  && match getattr run_options "checkpoint_settings" with
     | Ok checkpoint_settings =>
         has_attr checkpoint_settings "write_path" && is_flag checkpoint_settings "resume"
     | _ => false
     end.

(** A RunOptions missing an expected nested field: one of the six
    attributes, or, in a mapping of behaviors, the hyperparameters of a
    behavior, or the write path or the resume flag. *)
Definition missing_field (run_options : pyval) : bool :=
  negb (forallb (has_attr run_options) expected_attributes)
  || match getattr run_options "behaviors", getattr run_options "checkpoint_settings" with
     | Ok (PyDict entries), Ok checkpoint_settings =>
         negb (forallb has_hyperparameters entries)
         || negb (has_attr checkpoint_settings "write_path"
                  && has_attr checkpoint_settings "resume")
     | _, _ => false
     end.

(** A key that none of the prefixes of the global settings starts. *)
Definition clear_of_settings (k : string) : bool :=
  forallb (fun p => negb (String.prefix (p +:+ "_") k)) settings_list.

(** Computations that only print leave the log as it was. *)
Definition keeps_log {A : Type} (m : M A) : Prop :=
  forall w r w', m w = (r, w') -> log w' = log w.

(** [get_default_stats_writers] seen as the function of a plug-in. *)
Definition default_plugin : plugin_func :=
  fun run_options => l ← get_default_stats_writers run_options; mret (Writers l).

(** Modelled from the spec: the entry point of the defaults themselves,
    registered outside the sources (the docstring of
    [register_stats_writer_plugins] counts it among the plug-ins); loading
    it gives [get_default_stats_writers]. *)
Definition default_entry_point : EntryPoint :=
  {| name := "default"; load := mret default_plugin |}.

(** An entry point that loads the default factory. *)
Definition loads_default (entry_point : EntryPoint) : Prop :=
  forall w, load entry_point w = (Ok default_plugin, w).

(** An entry point that loads, and whose function returns [sinks], whatever
    the world it runs in. *)
Definition well_behaved (run_options : pyval) (entry_point : EntryPoint)
    (sinks : list StatsWriter) : Prop :=
  forall w, exists f w1 r w2,
    load entry_point w = (Ok f, w1) /\ f run_options w1 = (Ok r, w2) /\
    elements_of r = Ok sinks.

(** In world [w] the load of the entry point, or the call of what it loaded,
    raises [e] and leaves the world [w']. *)
Definition fails (run_options : pyval) (entry_point : EntryPoint)
    (w : world) (e : exn) (w' : world) : Prop :=
  load entry_point w = (Raise e, w')
  \/ exists f w1, load entry_point w = (Ok f, w1) /\ f run_options w1 = (Raise e, w').

Definition always_fails (run_options : pyval) (entry_point : EntryPoint) : Prop :=
  forall w, exists e w', fails run_options entry_point w e w'.

(** What an entry point adds to the result: its sinks, or nothing when it
    fails. *)
Definition outcome (run_options : pyval) (entry_point : EntryPoint)
    (sinks : list StatsWriter) : Prop :=
  well_behaved run_options entry_point sinks
  \/ (always_fails run_options entry_point /\ sinks = []).

(** ** Sample data *)

Definition ppo_hyperparameters : pyval :=
  PyObj "PPOSettings(batch_size=1024)" "PPOSettings(batch_size=1024)"
    [ ("learning_rate", PyFloat "0.0003");
      ("batch_size", PyInt 1024);
      ("__doc__", PyStr "PPOSettings()");
      ("as_dict", PyCallable "<bound method ExportableSettings.as_dict>") ].

Definition ball_settings : pyval :=
  PyObj "TrainerSettings(trainer_type='ppo')" "TrainerSettings(trainer_type='ppo')"
    [ ("trainer_type", PyStr "ppo");
      ("hyperparameters", ppo_hyperparameters);
      ("max_steps", PyInt 500000);
      ("threaded", PyBool false);
      ("as_dict", PyCallable "<bound method ExportableSettings.as_dict>") ].

Definition sample_checkpoint_settings (resume : bool) : pyval :=
  PyObj "CheckpointSettings(run_id='ppo')" "CheckpointSettings(run_id='ppo')"
    [ ("run_id", PyStr "ppo");
      ("resume", PyBool resume);
      ("write_path", PyStr "results/ppo") ].

Definition sample_run_options (resume : bool) : pyval :=
  PyObj "RunOptions()" "RunOptions()"
    [ ("behaviors", PyDict [(PyStr "3DBall", ball_settings)]);
      ("checkpoint_settings", sample_checkpoint_settings resume);
      ("engine_settings", PyObj "EngineSettings()" "EngineSettings()"
                            [("width", PyInt 84); ("no_graphics", PyBool false)]);
      ("environment_parameters", PyNone);
      ("env_settings", PyObj "EnvironmentSettings()" "EnvironmentSettings()"
                         [("num_envs", PyInt 1); ("env_path", PyNone)]);
      ("torch_settings", PyObj "TorchSettings()" "TorchSettings()"
                           [("device", PyNone)]) ].

Definition empty_world : world := World [] [].

(** The sinks [get_default_stats_writers] builds for the sample. *)
Definition sample_defaults : list StatsWriter :=
  Eval vm_compute in
    match fst (get_default_stats_writers (sample_run_options true) empty_world) with
    | Ok l => l
    | _ => []
    end.

Definition sample_key : string := "mlagents.stats_writer".

Definition tracker_sinks : list StatsWriter :=
  [Foreign (PyStr "csv"); Foreign (PyStr "mlflow")].

Definition tracker_entry_point : EntryPoint :=
  {| name := "tracker";
     load := mret (fun _ : pyval => mret (Writers tracker_sinks) : M plugin_value) |}.

(** An entry point whose module cannot be imported. *)
Definition broken_entry_point : EntryPoint :=
  {| name := "broken"; load := lift (Raise (Other "ImportError")) |}.

(** An entry point whose function raises. *)
Definition raising_entry_point : EntryPoint :=
  {| name := "raising";
     load := mret (fun _ : pyval => lift (Raise (Other "RuntimeError")) : M plugin_value) |}.

(** A behavior without its hyperparameters. *)
Definition settings_without_hyperparameters : pyval :=
  PyObj "TrainerSettings(trainer_type='ppo')" "TrainerSettings(trainer_type='ppo')"
    [ ("trainer_type", PyStr "ppo"); ("max_steps", PyInt 500000) ].

Definition malformed_run_options : pyval :=
  PyObj "RunOptions()" "RunOptions()"
    [ ("behaviors", PyDict [(PyStr "3DBall", settings_without_hyperparameters)]);
      ("checkpoint_settings", sample_checkpoint_settings false);
      ("engine_settings", PyObj "EngineSettings()" "EngineSettings()" [("width", PyInt 84)]);
      ("environment_parameters", PyNone);
      ("env_settings", PyObj "EnvironmentSettings()" "EnvironmentSettings()"
                         [("num_envs", PyInt 1)]);
      ("torch_settings", PyObj "TorchSettings()" "TorchSettings()" [("device", PyNone)]) ].

(** A behavior with an attribute named as one of its hyperparameters. *)
Definition clash_hyperparameters : pyval :=
  PyObj "SACSettings()" "SACSettings()"
    [ ("batch_size", PyInt 64); ("checkpoint_interval", PyInt 1000) ].

Definition clash_settings : pyval :=
  PyObj "TrainerSettings(trainer_type='sac')" "TrainerSettings(trainer_type='sac')"
    [ ("trainer_type", PyStr "sac");
      ("hyperparameters", clash_hyperparameters);
      ("checkpoint_interval", PyInt 500000) ].

Definition clash_run_options : pyval :=
  PyObj "RunOptions()" "RunOptions()"
    [ ("behaviors", PyDict [(PyStr "3DBall", ball_settings); (PyStr "Walker", clash_settings)]);
      ("checkpoint_settings", sample_checkpoint_settings false);
      ("engine_settings", PyObj "EngineSettings()" "EngineSettings()" [("width", PyInt 84)]);
      ("environment_parameters", PyNone);
      ("env_settings", PyObj "EnvironmentSettings()" "EnvironmentSettings()"
                         [("num_envs", PyInt 1)]);
      ("torch_settings", PyObj "TorchSettings()" "TorchSettings()" [("device", PyNone)]) ].

(** ** Further vocabulary *)

(** The item [get_attributes] makes of a name, when it keeps the name. *)
Definition public_item (obj : pyval) (n : string) : option (pyval * pyval) :=
  match public_attribute obj n with
  | Some v => Some (PyStr n, v)
  | None => None
  end.

(** Whether [get_attributes] keeps a name. *)
Definition kept (obj : pyval) (n : string) : bool :=
  match public_attribute obj n with Some _ => true | None => false end.

(** The order of [sorted] on strs: code point by code point. *)
Definition name_lt (a b : string) : Prop := String.compare a b = Lt.

Fixpoint strictly_sorted (l : list string) : Prop :=
  match l with
  | [] => True
  | a :: r => Forall (name_lt a) r /\ strictly_sorted r
  end.

(** The value of the last item of [d] whose key has the string form [s]. *)
Fixpoint last_value (s : string) (d : dict) : option pyval :=
  match d with
  | [] => None
  | (k, v) :: r =>
      match last_value s r with
      | Some v' => Some v'
      | None => if String.eqb (py_str k) s then Some v else None
      end
  end.


(** Computations that leave the log alone and only add lines to the
    standard output. *)
Definition prints_only {A : Type} (m : M A) : Prop :=
  forall w r w', m w = (r, w') ->
    log w' = log w /\ exists lines, stdout w' = (stdout w ++ lines)%list.


(** ** The RunOptions as an object that can change *)

(** A RunOptions is an object, and whoever holds it can change it between
    two calls: a plug-in receives it as its argument.  Running the
    flattening twice on the same RunOptions is reading one object at two
    moments.  The definitions named [live_] have the flattening of
    [get_default_stats_writers] run on such an object: the state holds what
    the object is worth at the moment, every read of an attribute goes to
    the state, and a variable bound to something reached from the RunOptions
    holds the way that leads there, not a copy.  Nothing else runs between
    two steps of one run, so within a run a way and the object it led to
    never come apart. *)

(** The way from the RunOptions to an object it reaches: the attributes to
    read and the places of the items to take in a dict. *)
Inductive step : Type :=
| Attr (name : string)
| Item (index : nat).

(** What a variable is bound to: an object reached from the RunOptions,
    known by the way that leads to it, or a value made on the spot (a key,
    what [str] returns). *)
Inductive var : Type :=
| At (way : list step)
| New (v : pyval).

(** A dict held in a local variable: its keys are strs or other immutable
    values, its values are what the variables were bound to. *)
Abbreviation live_dict := (list (pyval * var)).

Record live_state : Type := LiveState {
  object : pyval;
  console : world
}.

Definition L (A : Type) : Type := live_state -> result A * live_state.

#[export] Instance L_ret : MRet L := fun A a s => (Ok a, s).
#[export] Instance L_bind : MBind L := fun A B k m s =>
  match m s with
  | (Ok a, s') => k a s'
  | (Raise e, s') => (Raise e, s')
  | (Opaque, s') => (Opaque, s')
  end.

(** What a way leads to in an object.  A way that does not fit the object
    (an item past the end, an item of something that is no dict) is not one
    the flattening can hold; it is left undetermined. *)
Fixpoint reach (v : pyval) (way : list step) : result pyval :=
  match way with
  | [] => Ok v
  | Attr name :: rest => a ← getattr v name; reach a rest
  | Item index :: rest =>
      match v with
      | PyDict d =>
          match d !! index with
          | Some kv => reach (snd kv) rest
          | None => Opaque
          end
      | _ => Opaque
      end
  end.

(** What a variable stands for in an object. *)
Definition held (o : pyval) (x : var) : result pyval :=
  match x with
  | At way => reach o way
  | New v => Ok v
  end.

(** Reading a variable: the object as it is at the moment. *)
Definition value (x : var) : L pyval := fun s => (held (object s) x, s).

Definition just {A : Type} (r : result A) : L A := fun s => (r, s).

Definition on_console {A : Type} (m : M A) : L A :=
  fun s => let (r, w) := m (console s) in (r, LiveState (object s) w).

(** [getattr(obj, name)]: the attribute is looked up now, and the variable
    it is bound to leads to it. *)
Definition live_getattr (obj : var) (name : string) : L var :=
  match obj with
  | At way => _ ← value (At (way ++ [Attr name])); mret (At (way ++ [Attr name]))
  | New v => a ← just (getattr v name); mret (New a)
  end.

(** [dir(obj)] *)
Definition live_dir (obj : var) : L (list string) := v ← value obj; mret (dir v).

(** [callable(x)] *)
Definition live_callable (x : var) : L bool := v ← value x; mret (callable v).

(** [x.items()] as the [for] loop consumes it: each value is bound to the
    item of the dict it comes from. *)
Definition live_items (x : var) : L live_dict :=
  v ← value x;
  match v, x with
  | PyDict d, At way => mret (imap (fun i kv => (fst kv, At (way ++ [Item i]))) d)
  | _, _ =>
      entries ← just (items v);
      mret (List.map (fun kv => (fst kv, New (snd kv))) entries)
  end.

(** [d[k] = x], [d.update(other)] and a dict comprehension, as
    [dict_setitem], [dict_update] and [dict_of] on the dicts of values. *)
Fixpoint live_setitem (k : pyval) (x : var) (d : live_dict) : live_dict :=
  match d with
  | [] => [(k, x)]
  | (k', x') :: r =>
      if key_eqb k' k then (k', x) :: r else (k', x') :: live_setitem k x r
  end.

Definition live_update (d other : live_dict) : live_dict :=
  fold_left (fun acc kx => live_setitem (fst kx) (snd kx) acc) other d.

Definition live_dict_of (l : live_dict) : live_dict := live_update [] l.

(** [{attr: getattr(obj, attr) for attr in dir(obj)
      if not callable(getattr(obj, attr)) and not attr.startswith("__")}] *)
Fixpoint live_get_attributes_from (obj : var) (names : list string) (acc : live_dict)
  : L live_dict :=
  match names with
  | [] => mret acc
  | attr :: rest =>
      a ← live_getattr obj attr;
      c ← live_callable a;
      if negb c && negb (String.prefix "__" attr)
      then x ← live_getattr obj attr;
           live_get_attributes_from obj rest (live_setitem (PyStr attr) x acc)
      else live_get_attributes_from obj rest acc
  end.

Definition live_get_attributes (obj : var) : L live_dict :=
  names ← live_dir obj; live_get_attributes_from obj names [].

(** [{f"{prefix}{key}": val for key, val in d.items()}] *)
Definition live_prefixed (prefix : string) (d : live_dict) : live_dict :=
  live_dict_of (List.map (fun kx => (PyStr (prefix +:+ py_str (fst kx)), snd kx)) d).

(** The body of the loop over [run_options.behaviors.items()]. *)
Definition live_extract_behavior (extracted_data : live_dict) (behavior_settings : var)
  : L live_dict :=
  hyperparameters ← live_getattr behavior_settings "hyperparameters";
  hyperparams ← live_get_attributes hyperparameters;
  behavior_data ← live_get_attributes behavior_settings;
  let extracted_data := live_update extracted_data (live_prefixed "" hyperparams) in
  mret (live_update extracted_data (live_prefixed "" behavior_data)).

Fixpoint live_extract_behaviors (extracted_data : live_dict) (behaviors : live_dict)
  : L live_dict :=
  match behaviors with
  | [] => mret extracted_data
  | (behavior_name, behavior_settings) :: rest =>
      extracted_data ← live_extract_behavior extracted_data behavior_settings;
      live_extract_behaviors extracted_data rest
  end.

(** The body of the loop over [settings_list]. *)
Definition live_extract_setting (run_options : var) (extracted_data : live_dict)
    (setting_name : string) : L live_dict :=
  setting ← live_getattr run_options setting_name;
  setting_data ← live_get_attributes setting;
  mret (live_update extracted_data (live_prefixed (setting_name +:+ "_") setting_data)).

Fixpoint live_extract_settings (run_options : var) (extracted_data : live_dict)
    (names : list string) : L live_dict :=
  match names with
  | [] => mret extracted_data
  | setting_name :: rest =>
      extracted_data ← live_extract_setting run_options extracted_data setting_name;
      live_extract_settings run_options extracted_data rest
  end.

Definition live_extract (run_options : var) : L live_dict :=
  behaviors ← live_getattr run_options "behaviors";
  entries ← live_items behaviors;
  extracted_data ← live_extract_behaviors [] entries;
  live_extract_settings run_options extracted_data settings_list.

(** The values of a dict as they are at the moment, for its [repr]. *)
Fixpoint live_values (d : live_dict) : L dict :=
  match d with
  | [] => mret []
  | (k, x) :: rest => v ← value x; shown ← live_values rest; mret ((k, v) :: shown)
  end.

(** [print(f"{label}{d!r}")] *)
Definition live_print_dict (label : string) (d : live_dict) : L unit :=
  shown ← live_values d; on_console (print (label +:+ py_repr (PyDict shown))).

(** The loop of [to_json_serializable]: a key or a value the probe refuses
    is replaced by a new str, one it accepts stays what it was. *)
Fixpoint live_to_json_serializable_from (entries : live_dict) (new_dict : live_dict)
  : L live_dict :=
  match entries with
  | [] => mret new_dict
  | (key, x) :: rest =>
      let key := if negb (is_jsonable key) then PyStr (py_str key) else key in
      v ← value x;
      let x := if negb (is_jsonable v) then New (PyStr (py_str v)) else x in
      live_to_json_serializable_from rest (live_setitem key x new_dict)
  end.

Definition live_to_json_serializable (d : live_dict) : L live_dict :=
  live_to_json_serializable_from d [].

(** Both loops, the coercion and the two prints around it. *)
Definition live_flatten (run_options : var) : L live_dict :=
  extracted_data ← live_extract run_options;
  _ ← live_print_dict "extracted_data = " extracted_data;
  extracted_data ← live_to_json_serializable extracted_data;
  _ ← live_print_dict "After serialisation, extracted_data = " extracted_data;
  mret extracted_data.

(** Setting an attribute in the namespace of an instance: in place when the
    name is there, at the end when it is new. *)
Fixpoint set_name (name : string) (a : pyval) (attrs : list (string * pyval))
  : list (string * pyval) :=
  match attrs with
  | [] => [(name, a)]
  | (n, b) :: rest =>
      if String.eqb n name then (n, a) :: rest else (n, b) :: set_name name a rest
  end.

(** The object with what a way leads to replaced. *)
Fixpoint put (v : pyval) (way : list step) (new : pyval) : result pyval :=
  match way with
  | [] => Ok new
  | Attr name :: rest =>
      match v with
      | PyObj s r attrs =>
          a ← match rest with
              | [] => Ok new
              | _ => a ← getattr v name; put a rest new
              end;
          Ok (PyObj s r (set_name name a attrs))
      | _ => Raise AttributeError
      end
  | Item index :: rest =>
      match v with
      | PyDict d =>
          match d !! index with
          | Some kv => a ← put (snd kv) rest new; Ok (PyDict (<[index := (fst kv, a)]> d))
          | None => Opaque
          end
      | _ => Opaque
      end
  end.

(** [setattr(obj, name, v)] with a value made on the spot, on an object
    reached from the RunOptions: what a plug-in can do to its argument. *)
Definition live_setattr (obj : var) (name : string) (v : pyval) : L unit :=
  fun s =>
    match obj with
    | At way =>
        match put (object s) (way ++ [Attr name]) v with
        | Ok o => (Ok tt, LiveState o (console s))
        | Raise e => (Raise e, s)
        | Opaque => (Opaque, s)
        end
    | New _ => (Opaque, s)
    end.

(** A dict of values, each held as a value made on the spot. *)
Definition fresh (d : dict) : live_dict :=
  List.map (fun kv => (fst kv, New (snd kv))) d.

(** A dict of variables and the dict of the values they stand for in an
    object. *)
Definition snapshot (o : pyval) (d : live_dict) (d' : dict) : Prop :=
  Forall2 (fun kx kv => fst kx = fst kv /\ held o (snd kx) = Ok (snd kv)) d d'.

(** Two outcomes of the same kind, with related values. *)
Inductive same_outcome {A B : Type} (R : A -> B -> Prop) : result A -> result B -> Prop :=
| same_Ok (a : A) (b : B) : R a b -> same_outcome R (Ok a) (Ok b)
| same_Raise (e : exn) : same_outcome R (Raise e) (Raise e)
| same_Opaque : same_outcome R Opaque Opaque.

(** On the object [o] the computation [m] leaves the state as it was and
    ends as [r] does. *)
Definition follows {A B : Type} (o : pyval) (R : A -> B -> Prop)
    (m : L A) (r : result B) : Prop :=
  forall s, object s = o -> exists ra, m s = (ra, s) /\ same_outcome R ra r.

(** The sample RunOptions as a live object, before anything is printed. *)
Definition live_sample : live_state := LiveState (sample_run_options true) empty_world.

(** What a plug-in may do to the RunOptions it receives: here it sets the
    width of the engine settings. *)
Definition widen (run_options : var) : L unit :=
  engine_settings ← live_getattr run_options "engine_settings";
  live_setattr engine_settings "width" (PyInt 128).

(** * Properties *)

(** ** Running a computation *)

Section Monad.
Context {A B : Type}.

Lemma bind_Ok (m : M A) (k : A -> M B) (w w' : world) (b : B) :
  (m ≫= k) w = (Ok b, w') ->
  exists a w1, m w = (Ok a, w1) /\ k a w1 = (Ok b, w').
Proof.
  unfold mbind, M_bind. destruct (m w) as [[a|e|] w1]; intros H.
  - eauto.
  - discriminate.
  - discriminate.
Qed.

Lemma bind_run_Ok (m : M A) (k : A -> M B) (w w1 : world) (a : A) :
  m w = (Ok a, w1) -> (m ≫= k) w = k a w1.
Proof. unfold mbind, M_bind. now intros ->. Qed.

Lemma bind_run_Raise (m : M A) (k : A -> M B) (w w1 : world) (e : exn) :
  m w = (Raise e, w1) -> (m ≫= k) w = (Raise e, w1).
Proof. unfold mbind, M_bind. now intros ->. Qed.

Lemma lift_Ok (r : result A) (w w' : world) (a : A) :
  lift r w = (Ok a, w') -> r = Ok a /\ w' = w.
Proof. unfold lift. intros [= -> ->]. auto. Qed.
End Monad.

(** ** The coercion *)

Lemma is_jsonable_false (x : pyval) : is_jsonable x = false.
Proof. reflexivity. Qed.

Lemma fold_setitem_map (f : pyval * pyval -> pyval * pyval) (l acc : dict) :
  fold_left (fun nd kv => dict_setitem (fst (f kv)) (snd (f kv)) nd) l acc
  = dict_update acc (List.map f l).
Proof.
  unfold dict_update. revert acc.
  induction l as [|kv l IH]; intros acc; simpl; [reflexivity | apply IH].
Qed.

Lemma to_json_serializable_stringify (d : dict) :
  to_json_serializable d = dict_of (List.map stringify d).
Proof. unfold dict_of. rewrite <- fold_setitem_map. reflexivity. Qed.

Lemma setitem_str_items (k v : pyval) (d : dict) :
  is_str k = true -> is_str v = true ->
  Forall str_item d -> Forall str_item (dict_setitem k v d).
Proof.
  intros Hk Hv. induction 1 as [|[k' v'] d [Hk' Hv'] Hd IH]; simpl.
  - repeat constructor; assumption.
  - destruct (key_eqb k' k); constructor; try assumption; split; assumption.
Qed.

Lemma update_str_items (other d : dict) :
  Forall str_item other -> Forall str_item d -> Forall str_item (dict_update d other).
Proof.
  unfold dict_update. intros Ho. revert d.
  induction Ho as [|[k v] other [Hk Hv] Ho IH]; intros d Hd; simpl; [assumption|].
  apply IH, setitem_str_items; assumption.
Qed.

Lemma to_json_serializable_str_items (d : dict) :
  Forall str_item (to_json_serializable d).
Proof.
  rewrite to_json_serializable_stringify. apply update_str_items; [|constructor].
  induction d as [|kv d IH]; simpl; constructor; [split; reflexivity | exact IH].
Qed.

Lemma flatten_run (run_options : pyval) (w : world) :
  flatten run_options w =
  match extract run_options with
  | Ok d =>
      (Ok (to_json_serializable d),
       World (stdout w
                ++ ["extracted_data = " +:+ py_repr (PyDict d)]
                ++ ["After serialisation, extracted_data = "
                      +:+ py_repr (PyDict (to_json_serializable d))])%list
             (log w))
  | Raise e => (Raise e, w)
  | Opaque => (Opaque, w)
  end.
Proof.
  unfold flatten, mbind, M_bind, lift, print, mret, M_ret.
  destruct (extract run_options); simpl; try reflexivity.
  now rewrite <- app_assoc.
Qed.

(** ** Dictionaries with str keys *)

Lemma is_str_inv (v : pyval) : is_str v = true -> exists s, v = PyStr s.
Proof. destruct v; try discriminate. eauto. Qed.

Lemma key_eqb_PyStr (k' : pyval) (k : string) :
  key_eqb k' (PyStr k) = true -> k' = PyStr k.
Proof.
  destruct k'; try discriminate. simpl. now intros ->%String.eqb_eq.
Qed.

Lemma dict_get_setitem (k k' : string) (v : pyval) (d : dict) :
  dict_get (PyStr k) (dict_setitem (PyStr k') v d)
  = if String.eqb k' k then Some v else dict_get (PyStr k) d.
Proof.
  induction d as [|[k0 v0] d IH]; simpl.
  - reflexivity.
  - destruct k0; simpl; try exact IH.
    destruct (String.eqb s k') eqn:E1; simpl.
    + apply String.eqb_eq in E1 as ->. destruct (String.eqb k' k); reflexivity.
    + rewrite IH. destruct (String.eqb s k) eqn:E2; [|reflexivity].
      apply String.eqb_eq in E2 as ->. now rewrite String.eqb_sym, E1.
Qed.

Lemma dict_get_None (k : string) (d : dict) :
  PyStr k ∉ keys d -> dict_get (PyStr k) d = None.
Proof.
  induction d as [|[k0 v0] d IH]; simpl; intros H; [reflexivity|].
  apply not_elem_of_cons in H as [H1 H2].
  destruct (key_eqb k0 (PyStr k)) eqn:E; [|now apply IH].
  apply key_eqb_PyStr in E. congruence.
Qed.

Lemma dict_get_elem (k : string) (v : pyval) (d : dict) :
  dict_get (PyStr k) d = Some v -> PyStr k ∈ keys d.
Proof.
  induction d as [|[k0 v0] d IH]; simpl; [discriminate|].
  destruct (key_eqb k0 (PyStr k)) eqn:E.
  - intros _. apply key_eqb_PyStr in E as ->. apply elem_of_cons. now left.
  - intros H. apply elem_of_cons. right. now apply IH.
Qed.

Lemma dict_get_not_elem (k : string) (d : dict) :
  dict_get (PyStr k) d = None -> PyStr k ∉ keys d.
Proof.
  induction d as [|[k0 v0] d IH]; simpl; intros H; [apply not_elem_of_nil|].
  destruct (key_eqb k0 (PyStr k)) eqn:E; [discriminate|].
  apply not_elem_of_cons. split; [|now apply IH].
  intros <-. simpl in E. now rewrite String.eqb_refl in E.
Qed.

Lemma setitem_fresh (k v : pyval) (d : dict) :
  is_str k = true -> k ∉ keys d ->
  dict_setitem k v d = (d ++ [(k, v)])%list.
Proof.
  intros [s ->]%is_str_inv.
  induction d as [|[k0 v0] d IH]; simpl; intros H; [reflexivity|].
  apply not_elem_of_cons in H as [H1 H2].
  destruct (key_eqb k0 (PyStr s)) eqn:E.
  - apply key_eqb_PyStr in E. congruence.
  - f_equal. now apply IH.
Qed.

Lemma setitem_present (k v : pyval) (d : dict) :
  is_str k = true -> k ∈ keys d -> keys (dict_setitem k v d) = keys d.
Proof.
  intros [s ->]%is_str_inv.
  induction d as [|[k0 v0] d IH]; simpl; intros H; [now apply elem_of_nil in H|].
  destruct (key_eqb k0 (PyStr s)) eqn:E; [reflexivity|].
  simpl. f_equal. apply IH.
  apply elem_of_cons in H as [<-|H]; [|assumption].
  simpl in E. now rewrite String.eqb_refl in E.
Qed.

Lemma setitem_str_keys (k v : pyval) (d : dict) :
  str_keys d -> is_str k = true -> str_keys (dict_setitem k v d).
Proof.
  intros Hd Hk. induction Hd as [|[k0 v0] d Hk0 Hd IH]; simpl.
  - now repeat constructor.
  - destruct (key_eqb k0 k); constructor; assumption.
Qed.

Lemma setitem_wf (k v : pyval) (d : dict) :
  dict_wf d -> is_str k = true -> dict_wf (dict_setitem k v d).
Proof.
  intros [Hs Hn] Hk. split; [now apply setitem_str_keys|].
  destruct (is_str_inv k Hk) as [s ->].
  destruct (dict_get (PyStr s) d) as [v0|] eqn:E.
  - apply dict_get_elem in E. now rewrite setitem_present.
  - apply dict_get_not_elem in E as Hfresh.
    rewrite setitem_fresh by assumption. unfold keys.
    rewrite List.map_app. apply NoDup_app. repeat split; try assumption.
    + intros x Hx ->%list_elem_of_singleton. contradiction.
    + apply NoDup_singleton.
Qed.

Lemma update_cons (d : dict) (kv : pyval * pyval) (other : dict) :
  dict_update d (kv :: other) = dict_update (dict_setitem (fst kv) (snd kv) d) other.
Proof. reflexivity. Qed.

Lemma update_wf (other d : dict) :
  str_keys other -> dict_wf d -> dict_wf (dict_update d other).
Proof.
  intros Ho. revert d.
  induction Ho as [|kv other Hk Ho IH]; intros d Hd; [assumption|].
  rewrite update_cons. apply IH, setitem_wf; assumption.
Qed.

(** Reading a key after an update: the other dict wins. *)
Lemma dict_get_update (k : string) (other d : dict) :
  dict_wf other ->
  dict_get (PyStr k) (dict_update d other)
  = match dict_get (PyStr k) other with
    | Some v => Some v
    | None => dict_get (PyStr k) d
    end.
Proof.
  intros [Hs Hn]. revert d.
  induction Hs as [|[k0 v0] other Hk0 Hs IH]; intros d; [reflexivity|].
  apply NoDup_cons in Hn as [Hfresh Hn].
  rewrite update_cons, (IH Hn). simpl fst; simpl snd.
  destruct (is_str_inv k0 Hk0) as [s ->].
  rewrite dict_get_setitem. simpl. destruct (String.eqb s k) eqn:E.
  - apply String.eqb_eq in E as ->. now rewrite (dict_get_None k other).
  - reflexivity.
Qed.

Lemma update_fresh (other d : dict) :
  dict_wf other -> (forall k, k ∈ keys other -> k ∉ keys d) ->
  dict_update d other = (d ++ other)%list.
Proof.
  intros [Hs Hn]. revert d.
  induction Hs as [|[k0 v0] other Hk0 Hs IH]; intros d Hd.
  - now rewrite app_nil_r.
  - apply NoDup_cons in Hn as [Hfresh Hn].
    rewrite update_cons. simpl fst; simpl snd.
    rewrite setitem_fresh; [| assumption | apply Hd, elem_of_cons; now left].
    rewrite (IH Hn).
    + now rewrite <- app_assoc.
    + intros k Hk. unfold keys. rewrite List.map_app.
      apply not_elem_of_app. split.
      * apply Hd, elem_of_cons. now right.
      * simpl. intros ->%list_elem_of_singleton. contradiction.
Qed.

Lemma dict_of_wf (l : dict) : dict_wf l -> dict_of l = l.
Proof.
  intros H. unfold dict_of. rewrite update_fresh; [reflexivity | assumption |].
  intros k _. apply not_elem_of_nil.
Qed.

Lemma dict_wf_nil : dict_wf [].
Proof. split; [constructor | apply NoDup_nil_2]. Qed.

Lemma dict_of_is_wf (l : dict) : str_keys l -> dict_wf (dict_of l).
Proof. intros H. apply update_wf; [assumption | apply dict_wf_nil]. Qed.

(** ** Attributes *)

Lemma elem_of_insert_name (x a : string) (l : list string) :
  x ∈ insert_name a l <-> x = a \/ x ∈ l.
Proof.
  induction l as [|b l IH]; simpl.
  - rewrite list_elem_of_singleton, elem_of_nil. tauto.
  - destruct (String.compare a b) eqn:E.
    + apply String.compare_eq_iff in E as ->. rewrite elem_of_cons. tauto.
    + rewrite !elem_of_cons. tauto.
    + rewrite !elem_of_cons, IH. tauto.
Qed.

Lemma elem_of_dir (x : string) (v : pyval) :
  x ∈ dir v <-> x ∈ List.map fst (namespace v).
Proof.
  unfold dir. induction (List.map fst (namespace v)) as [|a l IH]; simpl.
  - reflexivity.
  - rewrite elem_of_insert_name, elem_of_cons, IH. reflexivity.
Qed.

Lemma lookup_name_elem {A : Type} (x : string) (l : list (string * A)) :
  x ∈ List.map fst l <-> exists a, lookup_name x l = Some a.
Proof.
  induction l as [|[n a] l IH]; simpl.
  - rewrite elem_of_nil. split; [tauto | now intros [a H]].
  - rewrite elem_of_cons, IH. destruct (String.eqb n x) eqn:E.
    + apply String.eqb_eq in E as ->. split; eauto.
    + apply String.eqb_neq in E. split; [intros [->|H]; [congruence | assumption] | auto].
Qed.

Lemma getattr_dir (obj : pyval) (n : string) :
  n ∈ dir obj <-> exists a, getattr obj n = Ok a.
Proof.
  rewrite elem_of_dir, lookup_name_elem. unfold getattr.
  destruct (lookup_name n (namespace obj)) as [a|]; split; intros [b H];
    try discriminate; eauto.
Qed.

Lemma getattr_cases (obj : pyval) (n : string) :
  (exists a, getattr obj n = Ok a) \/ getattr obj n = Raise AttributeError.
Proof. unfold getattr. destruct (lookup_name n (namespace obj)); eauto. Qed.

Lemma get_attributes_from_spec (obj : pyval) (names : list string) :
  (forall n, n ∈ names -> exists a, getattr obj n = Ok a) ->
  forall acc, dict_wf acc ->
  exists d, get_attributes_from obj names acc = Ok d /\ dict_wf d /\
    forall k, dict_get (PyStr k) d
              = match (if bool_decide (k ∈ names) then public_attribute obj k else None) with
                | Some a => Some a
                | None => dict_get (PyStr k) acc
                end.
Proof.
  induction names as [|attr rest IH]; intros Hnames acc Hacc.
  - exists acc. split; [reflexivity | split; [assumption|]].
    intros k. now rewrite bool_decide_eq_false_2 by apply not_elem_of_nil.
  - destruct (Hnames attr) as [a Ha]; [apply elem_of_cons; now left|].
    assert (Hrest : forall n, n ∈ rest -> exists a, getattr obj n = Ok a).
    { intros n Hn. apply Hnames, elem_of_cons. now right. }
    specialize (IH Hrest).
    simpl. rewrite Ha. simpl.
    destruct (negb (callable a) && negb (String.prefix "__" attr)) eqn:Hpub.
    + destruct (IH (dict_setitem (PyStr attr) a acc)) as (d & Hd & Hwf & Hget).
      { now apply setitem_wf. }
      exists d. split; [assumption | split; [assumption|]].
      intros k. rewrite Hget, dict_get_setitem.
      destruct (String.eqb attr k) eqn:E.
      * apply String.eqb_eq in E as <-.
        rewrite (bool_decide_eq_true_2 (attr ∈ attr :: rest)) by (apply elem_of_cons; now left).
        unfold public_attribute. rewrite Ha, Hpub.
        now destruct (bool_decide (attr ∈ rest)).
      * apply String.eqb_neq in E.
        assert (Hiff : k ∈ attr :: rest <-> k ∈ rest).
        { rewrite elem_of_cons. split; [intros [->|H]; [congruence | assumption] | auto]. }
        now rewrite (bool_decide_ext _ _ Hiff).
    + destruct (IH acc Hacc) as (d & Hd & Hwf & Hget).
      exists d. split; [assumption | split; [assumption|]].
      intros k. rewrite Hget.
      destruct (String.eqb attr k) eqn:E.
      * apply String.eqb_eq in E as <-.
        rewrite (bool_decide_eq_true_2 (attr ∈ attr :: rest)) by (apply elem_of_cons; now left).
        unfold public_attribute. rewrite Ha, Hpub.
        now destruct (bool_decide (attr ∈ rest)).
      * apply String.eqb_neq in E.
        assert (Hiff : k ∈ attr :: rest <-> k ∈ rest).
        { rewrite elem_of_cons. split; [intros [->|H]; [congruence | assumption] | auto]. }
        now rewrite (bool_decide_ext _ _ Hiff).
Qed.

(** [get_attributes] never fails, and gives the public data attributes. *)
Lemma get_attributes_spec (obj : pyval) :
  exists d, get_attributes obj = Ok d /\ dict_wf d /\
    forall k, dict_get (PyStr k) d = public_attribute obj k.
Proof.
  destruct (get_attributes_from_spec obj (dir obj)) with (acc := @nil (pyval * pyval))
    as (d & Hd & Hwf & Hget).
  - intros n. apply getattr_dir.
  - apply dict_wf_nil.
  - exists d. split; [assumption | split; [assumption|]].
    intros k. rewrite Hget. case_bool_decide as Hk.
    + now destruct (public_attribute obj k).
    + simpl. unfold public_attribute.
      destruct (getattr obj k) as [a| |] eqn:E; try reflexivity.
      exfalso. apply Hk, getattr_dir. eauto.
Qed.

(** ** Renaming and coercing a well-formed dict *)

Lemma prefixed_is_wf (p : string) (d : dict) : dict_wf (prefixed p d).
Proof.
  apply dict_of_is_wf. unfold str_keys.
  induction d as [|kv d IH]; simpl; constructor; [reflexivity | exact IH].
Qed.

Lemma rename_wf (p : string) (d : dict) : dict_wf d -> dict_wf (List.map (rename p) d).
Proof.
  intros [Hs Hn]. split.
  - clear Hn. induction Hs; simpl; constructor; [reflexivity | assumption].
  - unfold keys. rewrite List.map_map. simpl.
    induction Hs as [|[k0 v0] d Hk0 Hs IH]; simpl; [apply NoDup_nil_2|].
    apply NoDup_cons in Hn as [Hfresh Hn]. apply NoDup_cons. split; [|now apply IH].
    intros Hin. apply Hfresh. clear IH Hn Hfresh.
    destruct (is_str_inv k0 Hk0) as [s ->].
    induction Hs as [|[k1 v1] d Hk1 Hs IH]; simpl in *; [now apply elem_of_nil in Hin|].
    apply elem_of_cons in Hin as [Heq|Hin]; apply elem_of_cons; [left | right; now apply IH].
    destruct (is_str_inv k1 Hk1) as [s1 ->]. simpl in Heq.
    injection Heq as Heq. apply String.app_inj in Heq. now subst.
Qed.

Lemma prefixed_map (p : string) (d : dict) :
  dict_wf d -> prefixed p d = List.map (rename p) d.
Proof. intros H. apply dict_of_wf, rename_wf, H. Qed.

Lemma rename_empty (d : dict) : str_keys d -> List.map (rename "") d = d.
Proof.
  induction 1 as [|[k v] d Hk Hd IH]; simpl; [reflexivity|].
  rewrite IH. destruct (is_str_inv k Hk) as [s ->]. reflexivity.
Qed.

Lemma prefixed_empty (d : dict) : dict_wf d -> prefixed "" d = d.
Proof. intros H. rewrite prefixed_map by assumption. apply rename_empty, H. Qed.

Lemma prefix_append (p s : string) : String.prefix p (p +:+ s) = true.
Proof.
  induction p as [|c p IH]; [now destruct s|].
  change (String c p +:+ s) with (String c (p +:+ s)). simpl.
  destruct (ascii_dec c c); [exact IH | congruence].
Qed.

Lemma dict_get_rename_other (p k : string) (d : dict) :
  String.prefix p k = false -> dict_get (PyStr k) (List.map (rename p) d) = None.
Proof.
  intros Hp. induction d as [|[k0 v0] d IH]; simpl; [reflexivity|].
  destruct (String.eqb (p +:+ py_str k0) k) eqn:E; [|exact IH].
  apply String.eqb_eq in E. subst k. now rewrite prefix_append in Hp.
Qed.

Lemma stringify_wf (d : dict) : dict_wf d -> dict_wf (List.map stringify d).
Proof.
  intros [Hs Hn].
  assert (Hk : keys (List.map stringify d) = keys d).
  { unfold keys. clear Hn.
    induction Hs as [|[k v] d Hk Hs IH]; simpl; [reflexivity|].
    f_equal; [|exact IH]. destruct (is_str_inv k Hk) as [s ->]. reflexivity. }
  split; [|now rewrite Hk].
  clear. induction d; simpl; constructor; [reflexivity | assumption].
Qed.

(** On a map whose keys are distinct strs the coercion rewrites each item
    in place. *)
Lemma to_json_serializable_map (d : dict) :
  dict_wf d -> to_json_serializable d = List.map stringify d.
Proof.
  intros H. rewrite to_json_serializable_stringify. apply dict_of_wf, stringify_wf, H.
Qed.

Lemma dict_get_stringify (k : string) (d : dict) :
  str_keys d ->
  dict_get (PyStr k) (List.map stringify d)
  = option_map (fun v => PyStr (py_str v)) (dict_get (PyStr k) d).
Proof.
  induction 1 as [|[k0 v0] d Hk0 Hs IH]; simpl; [reflexivity|].
  destruct (is_str_inv k0 Hk0) as [s ->]. simpl.
  destruct (String.eqb s k); [reflexivity | exact IH].
Qed.

(** ** The two loops of the flattening *)

Lemma has_attr_true (v : pyval) (n : string) :
  has_attr v n = true -> exists a, getattr v n = Ok a.
Proof. unfold has_attr. destruct (getattr v n); try discriminate. eauto. Qed.

Lemma has_attr_false (v : pyval) (n : string) :
  has_attr v n = false -> getattr v n = Raise AttributeError.
Proof.
  unfold has_attr. destruct (getattr_cases v n) as [[a ->] | ->]; [discriminate | reflexivity].
Qed.

Lemma extract_behavior_run (acc : dict) (bs hp : pyval) :
  getattr bs "hyperparameters" = Ok hp ->
  exists hpd bd,
    get_attributes hp = Ok hpd /\ get_attributes bs = Ok bd /\
    dict_wf hpd /\ dict_wf bd /\
    (forall k, dict_get (PyStr k) hpd = public_attribute hp k) /\
    (forall k, dict_get (PyStr k) bd = public_attribute bs k) /\
    extract_behavior acc bs = Ok (dict_update (dict_update acc hpd) bd).
Proof.
  intros Hhp.
  destruct (get_attributes_spec hp) as (hpd & Hhpd & Wh & Gh).
  destruct (get_attributes_spec bs) as (bd & Hbd & Wb & Gb).
  exists hpd, bd. repeat (split; [assumption|]).
  unfold extract_behavior. rewrite Hhp. simpl. rewrite Hhpd. simpl. rewrite Hbd. simpl.
  now rewrite !prefixed_empty.
Qed.

Lemma extract_behavior_cases (acc : dict) (bs : pyval) :
  dict_wf acc ->
  (has_attr bs "hyperparameters" = true /\
   exists d, extract_behavior acc bs = Ok d /\ dict_wf d)
  \/ (has_attr bs "hyperparameters" = false /\
      extract_behavior acc bs = Raise AttributeError).
Proof.
  intros Hacc. destruct (has_attr bs "hyperparameters") eqn:E.
  - left. split; [reflexivity|]. apply has_attr_true in E as [hp Hhp].
    destruct (extract_behavior_run acc bs hp Hhp) as (hpd & bd & _ & _ & Wh & Wb & _ & _ & ->).
    eexists. split; [reflexivity|].
    apply update_wf; [apply Wb|]. apply update_wf; [apply Wh | assumption].
  - right. split; [reflexivity|]. apply has_attr_false in E.
    unfold extract_behavior. now rewrite E.
Qed.

Lemma extract_behaviors_cases (entries : dict) :
  forall acc, dict_wf acc ->
  (forallb has_hyperparameters entries = true /\
   exists d, extract_behaviors acc entries = Ok d /\ dict_wf d)
  \/ (forallb has_hyperparameters entries = false /\
      extract_behaviors acc entries = Raise AttributeError).
Proof.
  induction entries as [|[bname bs] entries IH]; intros acc Hacc; simpl.
  - left. eauto.
  - unfold has_hyperparameters at 1 3. simpl.
    destruct (extract_behavior_cases acc bs Hacc) as [[-> (d & -> & Hd)] | [-> ->]]; simpl.
    + apply IH, Hd.
    + right. auto.
Qed.

Lemma extract_behaviors_app (l1 l2 : dict) :
  forall acc, extract_behaviors acc (l1 ++ l2)
              = (d ← extract_behaviors acc l1; extract_behaviors d l2).
Proof.
  induction l1 as [|[bname bs] l1 IH]; intros acc; simpl; [reflexivity|].
  destruct (extract_behavior acc bs); simpl; [apply IH | reflexivity | reflexivity].
Qed.

Lemma extract_settings_cases (run_options : pyval) (names : list string) :
  forall acc, dict_wf acc ->
  (forallb (has_attr run_options) names = true /\
   exists d, extract_settings run_options acc names = Ok d /\ dict_wf d /\
     forall k, (forall p, p ∈ names -> String.prefix (p +:+ "_") k = false) ->
               dict_get (PyStr k) d = dict_get (PyStr k) acc)
  \/ (forallb (has_attr run_options) names = false /\
      extract_settings run_options acc names = Raise AttributeError).
Proof.
  induction names as [|n names IH]; intros acc Hacc; simpl.
  - left. split; [reflexivity|]. exists acc. auto.
  - unfold extract_setting. destruct (has_attr run_options n) eqn:E; simpl.
    + apply has_attr_true in E as [s ->]. simpl.
      destruct (get_attributes_spec s) as (sd & -> & Ws & _). simpl.
      set (acc' := dict_update acc (prefixed (n +:+ "_") sd)).
      assert (Hacc' : dict_wf acc').
      { apply update_wf; [apply prefixed_is_wf | assumption]. }
      destruct (IH acc' Hacc') as [[-> (d & -> & Hd & Hget)] | [-> ->]]; [left | right; auto].
      split; [reflexivity|]. exists d. split; [reflexivity | split; [assumption|]].
      intros k Hk. rewrite Hget.
      * unfold acc'. rewrite dict_get_update by apply prefixed_is_wf.
        rewrite prefixed_map by assumption.
        rewrite dict_get_rename_other; [reflexivity|].
        apply Hk, elem_of_cons. now left.
      * intros p Hp. apply Hk, elem_of_cons. now right.
    + right. split; [reflexivity|]. apply has_attr_false in E. now rewrite E.
Qed.

(** ** The default factory *)

Lemma keeps_log_bind {A B : Type} (m : M A) (k : A -> M B) :
  keeps_log m -> (forall a, keeps_log (k a)) -> keeps_log (m ≫= k).
Proof.
  intros Hm Hk w r w'. unfold mbind, M_bind.
  destruct (m w) as [[a|e|] w1] eqn:E; intros H.
  - rewrite (Hk a _ _ _ H). eapply Hm, E.
  - injection H as <- <-. eapply Hm, E.
  - injection H as <- <-. eapply Hm, E.
Qed.

Lemma keeps_log_lift {A : Type} (r : result A) : keeps_log (lift r).
Proof. intros w r' w' [= _ <-]. reflexivity. Qed.

Lemma keeps_log_ret {A : Type} (a : A) : keeps_log (mret a : M A).
Proof. intros w r' w' [= _ <-]. reflexivity. Qed.

Lemma keeps_log_print (line : string) : keeps_log (print line).
Proof. intros w r' w' [= _ <-]. reflexivity. Qed.

Lemma keeps_log_print_attribute (run_options : pyval) (n : string) :
  keeps_log (print_attribute run_options n).
Proof.
  apply keeps_log_bind; [apply keeps_log_lift | intros a; apply keeps_log_print].
Qed.

Lemma keeps_log_flatten (run_options : pyval) : keeps_log (flatten run_options).
Proof.
  intros w r w'. rewrite flatten_run.
  destruct (extract run_options); intros [= _ <-]; reflexivity.
Qed.

Create HintDb frame discriminated.

#[local] Hint Resolve keeps_log_lift keeps_log_ret keeps_log_print
  keeps_log_print_attribute keeps_log_flatten : frame.

Lemma keeps_log_get_default (run_options : pyval) :
  keeps_log (get_default_stats_writers run_options).
Proof.
  unfold get_default_stats_writers.
  repeat (apply keeps_log_bind; [auto with frame | intros ?]).
  auto with frame.
Qed.

Lemma print_attribute_run (run_options : pyval) (n : string) (w : world) :
  (exists a w', getattr run_options n = Ok a /\ print_attribute run_options n w = (Ok tt, w'))
  \/ (getattr run_options n = Raise AttributeError /\
      print_attribute run_options n w = (Raise AttributeError, w)).
Proof.
  unfold print_attribute, mbind, M_bind, lift.
  destruct (getattr_cases run_options n) as [[a ->] | ->]; [left | right]; eauto.
Qed.

(** What a successful run of the default factory looks like. *)
Lemma get_default_Ok (run_options : pyval) (w w' : world) (l : list StatsWriter) :
  get_default_stats_writers run_options w = (Ok l, w') ->
  exists checkpoint_settings write_path resume clear_past_data config w0,
    getattr run_options "checkpoint_settings" = Ok checkpoint_settings /\
    getattr checkpoint_settings "write_path" = Ok write_path /\
    getattr checkpoint_settings "resume" = Ok resume /\
    py_not resume = Ok clear_past_data /\
    flatten run_options w0 = (Ok config, w') /\
    l = [ TensorboardWriter write_path clear_past_data hidden_keys;
          GaugeWriter; ConsoleWriter; WandbWriter config ].
Proof.
  unfold get_default_stats_writers. intros H.
  apply bind_Ok in H as (cs & w1 & [Hcs ->]%lift_Ok & H).
  do 6 apply bind_Ok in H as (? & ? & _ & H).
  apply bind_Ok in H as (config & w0 & Hflat & H).
  apply bind_Ok in H as (p & ? & [Hp ->]%lift_Ok & H).
  apply bind_Ok in H as (r & ? & [Hr ->]%lift_Ok & H).
  apply bind_Ok in H as (c & ? & [Hc ->]%lift_Ok & H).
  injection H as <- <-.
  exists cs, p, r, c, config. eauto 10.
Qed.

Ltac step_print :=
  match goal with
  | |- context [ (print_attribute ?ro ?n ≫= ?k) ?w ] =>
      let Hrun := fresh "Hrun" in
      destruct (print_attribute_run ro n w) as [(? & ? & ? & Hrun) | [? Hrun]];
      [ rewrite (bind_run_Ok _ _ _ _ _ Hrun); clear Hrun
      | rewrite (bind_run_Raise _ _ _ _ _ Hrun) ]
  end.

Ltac step_lift H :=
  match goal with
  | |- context [ (lift ?r ≫= ?k) ?w ] =>
      first [ rewrite (bind_run_Ok (lift r) k w w _ (f_equal (fun x => (x, w)) H))
            | rewrite (bind_run_Raise (lift r) k w w _ (f_equal (fun x => (x, w)) H)) ]
  end.

(** The six reads at the top of the function: the first name that is
    missing ends the run. *)
Lemma get_default_missing_attribute (run_options : pyval) (w : world) :
  forallb (has_attr run_options) expected_attributes = false ->
  fst (get_default_stats_writers run_options w) = Raise AttributeError.
Proof.
  intros H. unfold get_default_stats_writers.
  destruct (getattr_cases run_options "checkpoint_settings") as [[cs Hcs] | Hcs];
    step_lift Hcs; [|reflexivity].
  do 6 (step_print; [|reflexivity]).
  exfalso. simpl in H. unfold has_attr in H.
  repeat match goal with E : getattr run_options _ = Ok _ |- _ => rewrite E in H; clear E end.
  discriminate.
Qed.

Lemma extract_cases (run_options : pyval) (entries : dict) :
  getattr run_options "behaviors" = Ok (PyDict entries) ->
  forallb (has_attr run_options) settings_list = true ->
  (forallb has_hyperparameters entries = true /\
   exists d, extract run_options = Ok d /\ dict_wf d)
  \/ (forallb has_hyperparameters entries = false /\
      extract run_options = Raise AttributeError).
Proof.
  intros Hb Hs. unfold extract. rewrite Hb.
  cbv beta iota delta [mbind result_bind items].
  destruct (extract_behaviors_cases entries [] dict_wf_nil) as [[-> (d & -> & Hd)] | [-> ->]];
    [left | right; auto].
  split; [reflexivity|].
  destruct (extract_settings_cases run_options settings_list d Hd)
    as [[_ (d' & -> & Hd' & _)] | [Hf _]]; [eauto | congruence].
Qed.

Lemma expected_settings (run_options : pyval) :
  forallb (has_attr run_options) expected_attributes = true ->
  forallb (has_attr run_options) settings_list = true.
Proof.
  simpl. intros H.
  repeat match type of H with _ && _ = true => apply andb_prop in H as [? H] end.
  repeat (apply andb_true_intro; split); auto.
Qed.

(** [not] never raises: it gives a truth value or meets a method the
    model does not run. *)
Lemma py_not_cases (v : pyval) :
  (exists flag, py_not v = Ok flag /\ has_truth_value v = true)
  \/ (py_not v = Opaque /\ has_truth_value v = false).
Proof.
  unfold py_not, has_truth_value.
  destruct (py_truthy v) as [b|e|] eqn:E; [left; eauto | exfalso | right; auto].
  destruct v as [| | | | | | |s r attrs|]; try discriminate.
  simpl in E. now destruct (lookup_name "__bool__" attrs), (lookup_name "__len__" attrs).
Qed.

(** With the six attributes there and [behaviors] a dict, the run goes on to
    the flattening, to the two reads of [checkpoint_settings] and to the
    negation of the resume flag. *)
Lemma get_default_run (run_options checkpoint_settings : pyval) (entries : dict) (w : world) :
  forallb (has_attr run_options) expected_attributes = true ->
  getattr run_options "behaviors" = Ok (PyDict entries) ->
  getattr run_options "checkpoint_settings" = Ok checkpoint_settings ->
  (forallb has_hyperparameters entries
     && (has_attr checkpoint_settings "write_path" && is_flag checkpoint_settings "resume")
   = true /\
   exists l w', get_default_stats_writers run_options w = (Ok l, w'))
  \/ (forallb has_hyperparameters entries
        && (has_attr checkpoint_settings "write_path" && has_attr checkpoint_settings "resume")
      = false /\
      fst (get_default_stats_writers run_options w) = Raise AttributeError)
  \/ (forallb has_hyperparameters entries
        && (has_attr checkpoint_settings "write_path" && has_attr checkpoint_settings "resume")
      = true /\
      is_flag checkpoint_settings "resume" = false /\
      fst (get_default_stats_writers run_options w) = Opaque).
Proof.
  intros Hexp Hb Hcs.
  assert (Hrun : exists w1, get_default_stats_writers run_options w
    = (extracted_data ← flatten run_options;
       write_path ← lift (getattr checkpoint_settings "write_path");
       resume ← lift (getattr checkpoint_settings "resume");
       clear_past_data ← lift (py_not resume);
       mret [ TensorboardWriter write_path clear_past_data hidden_keys;
              GaugeWriter; ConsoleWriter; WandbWriter extracted_data ]) w1).
  { unfold get_default_stats_writers. step_lift Hcs.
    do 6 (step_print;
          [| exfalso; simpl in Hexp; unfold has_attr in Hexp;
             repeat match goal with
                    | E : getattr run_options _ = _ |- _ => rewrite E in Hexp; clear E
                    end;
             discriminate ]).
    eexists. reflexivity. }
  destruct Hrun as [w1 ->].
  pose proof (flatten_run run_options w1) as Hflat.
  destruct (extract_cases run_options entries Hb (expected_settings _ Hexp))
    as [[-> (d & Hd & _)] | [-> Hd]]; rewrite Hd in Hflat;
    [rewrite (bind_run_Ok _ _ _ _ _ Hflat)
    | rewrite (bind_run_Raise _ _ _ _ _ Hflat); right; left; auto].
  simpl andb. unfold is_flag.
  destruct (has_attr checkpoint_settings "write_path") eqn:Hp; simpl andb.
  - apply has_attr_true in Hp as [p Hp]. step_lift Hp.
    destruct (has_attr checkpoint_settings "resume") eqn:Hr.
    + apply has_attr_true in Hr as [r Hr]. step_lift Hr. rewrite Hr.
      destruct (py_not_cases r) as [(flag & Hflag & ->) | [Hflag ->]].
      * step_lift Hflag. left. eauto.
      * right. right. unfold mbind, M_bind, lift. rewrite Hflag. auto.
    + apply has_attr_false in Hr. step_lift Hr. right. left. auto.
  - apply has_attr_false in Hp. step_lift Hp. right. left. auto.
Qed.

Lemma get_default_total (run_options : pyval) (w : world) :
  fully_populated run_options = true ->
  exists l w', get_default_stats_writers run_options w = (Ok l, w').
Proof.
  unfold fully_populated. intros [[Hexp Hb]%andb_prop Hcs]%andb_prop.
  destruct (getattr run_options "behaviors") as [[| | | | | |entries| |]| |] eqn:Eb;
    try discriminate.
  destruct (getattr run_options "checkpoint_settings") as [cs| |] eqn:Ecs; try discriminate.
  destruct (get_default_run run_options cs entries w Hexp Eb Ecs)
    as [[_ H] | [[H _] | (_ & H & _)]]; [exact H| |].
  - apply andb_prop in Hcs as [Hp Hr]. rewrite Hb, Hp in H.
    unfold is_flag in Hr. unfold has_attr in H.
    destruct (getattr cs "resume"); discriminate.
  - apply andb_prop in Hcs as [_ Hr]. congruence.
Qed.

Lemma get_default_missing (run_options : pyval) (w : world) :
  missing_field run_options = true ->
  fst (get_default_stats_writers run_options w) = Raise AttributeError.
Proof.
  unfold missing_field.
  destruct (forallb (has_attr run_options) expected_attributes) eqn:Hexp; simpl;
    [|intros _; now apply get_default_missing_attribute].
  destruct (getattr run_options "behaviors") as [[| | | | | |entries| |]| |] eqn:Eb;
    try discriminate.
  destruct (getattr run_options "checkpoint_settings") as [cs| |] eqn:Ecs; try discriminate.
  intros H.
  destruct (get_default_run run_options cs entries w Hexp Eb Ecs)
    as [[H' _] | [[_ H'] | [H' _]]]; [|exact H'|].
  - apply andb_prop in H' as [H1 [H2 H3]%andb_prop]. rewrite H1, H2 in H.
    unfold is_flag in H3. unfold has_attr in H.
    destruct (getattr cs "resume"); discriminate.
  - apply andb_prop in H' as [H1 H2]. rewrite H1, H2 in H. discriminate.
Qed.

(** ** The loop over the entry points *)

Lemma logger_call_run (lv : level) (msg : string) (w : world) :
  logger_call lv msg w = (Ok tt, logged lv msg w).
Proof. reflexivity. Qed.

Lemma initialize_plugin_fails (run_options : pyval) (ep : EntryPoint)
    (w w' : world) (e : exn) :
  fails run_options ep (logged DEBUG (initializing_message ep) w) e w' ->
  initialize_plugin run_options ep w = (Raise e, w').
Proof.
  unfold initialize_plugin. rewrite (bind_run_Ok _ _ _ _ _ (logger_call_run _ _ w)).
  intros [H | (f & w1 & Hl & Hf)].
  - now rewrite (bind_run_Raise _ _ _ _ _ H).
  - rewrite (bind_run_Ok _ _ _ _ _ Hl). now rewrite (bind_run_Raise _ _ _ _ _ Hf).
Qed.

Lemma initialize_plugin_well_behaved (run_options : pyval) (ep : EntryPoint)
    (sinks : list StatsWriter) (w : world) :
  well_behaved run_options ep sinks ->
  exists w', initialize_plugin run_options ep w = (Ok sinks, w').
Proof.
  intros H. unfold initialize_plugin.
  rewrite (bind_run_Ok _ _ _ _ _ (logger_call_run _ _ w)).
  destruct (H (logged DEBUG (initializing_message ep) w)) as (f & w1 & r & w2 & Hl & Hf & He).
  rewrite (bind_run_Ok _ _ _ _ _ Hl), (bind_run_Ok _ _ _ _ _ Hf).
  rewrite (bind_run_Ok _ _ w2 w2 sinks) by (unfold lift; now rewrite He).
  rewrite (bind_run_Ok _ _ _ _ _ (logger_call_run _ _ w2)).
  eexists. reflexivity.
Qed.

Lemma plugin_turn_Ok (run_options : pyval) (acc found : list StatsWriter)
    (ep : EntryPoint) (w w' : world) :
  initialize_plugin run_options ep w = (Ok found, w') ->
  plugin_turn run_options acc ep w = (Ok (acc ++ found)%list, w').
Proof.
  intros H. unfold plugin_turn, try_except. now rewrite (bind_run_Ok _ _ _ _ _ H).
Qed.

Lemma plugin_turn_Raise (run_options : pyval) (acc : list StatsWriter)
    (ep : EntryPoint) (w w' : world) (e : exn) :
  initialize_plugin run_options ep w = (Raise e, w') ->
  plugin_turn run_options acc ep w = (Ok acc, logged ERROR (failure_message ep) w').
Proof.
  intros H. unfold plugin_turn, try_except. now rewrite (bind_run_Raise _ _ _ _ _ H).
Qed.

Lemma plugin_turn_no_raise (run_options : pyval) (acc : list StatsWriter)
    (ep : EntryPoint) (w : world) (e : exn) :
  fst (plugin_turn run_options acc ep w) <> Raise e.
Proof.
  destruct (initialize_plugin run_options ep w) as [[found|e'|] w'] eqn:E.
  - now rewrite (plugin_turn_Ok _ _ _ _ _ _ E).
  - now rewrite (plugin_turn_Raise _ _ _ _ _ _ E).
  - unfold plugin_turn, try_except, mbind, M_bind. now rewrite E.
Qed.

Lemma plugin_loop_no_raise (run_options : pyval) (eps : list EntryPoint) :
  forall acc w e, fst (plugin_loop run_options acc eps w) <> Raise e.
Proof.
  induction eps as [|ep eps IH]; intros acc w e; simpl; [discriminate|].
  pose proof (plugin_turn_no_raise run_options acc ep w) as Hturn.
  unfold mbind, M_bind.
  destruct (plugin_turn run_options acc ep w) as [[acc'|e'|] w']; simpl in *.
  - apply IH.
  - now destruct (Hturn e').
  - discriminate.
Qed.

Lemma plugin_loop_app (run_options : pyval) (pre post : list EntryPoint) :
  forall acc w,
    plugin_loop run_options acc (pre ++ post) w
    = (acc' ← plugin_loop run_options acc pre; plugin_loop run_options acc' post) w.
Proof.
  induction pre as [|ep pre IH]; intros acc w; simpl; [reflexivity|].
  unfold mbind, M_bind.
  destruct (plugin_turn run_options acc ep w) as [[acc'|e'|] w']; try reflexivity.
  apply IH.
Qed.

Lemma plugin_turn_outcome (run_options : pyval) (acc sinks : list StatsWriter)
    (ep : EntryPoint) (w : world) :
  outcome run_options ep sinks ->
  exists w', plugin_turn run_options acc ep w = (Ok (acc ++ sinks)%list, w').
Proof.
  intros [H | [H ->]].
  - destruct (initialize_plugin_well_behaved run_options ep sinks w H) as [w' Hw].
    exists w'. now apply plugin_turn_Ok.
  - destruct (H (logged DEBUG (initializing_message ep) w)) as (e & w' & Hf).
    apply initialize_plugin_fails in Hf. rewrite app_nil_r.
    eexists. eapply plugin_turn_Raise. exact Hf.
Qed.

Lemma plugin_loop_outcomes (run_options : pyval) (eps : list EntryPoint)
    (ls : list (list StatsWriter)) :
  Forall2 (outcome run_options) eps ls ->
  forall acc w, exists w',
    plugin_loop run_options acc eps w = (Ok (acc ++ concat ls)%list, w').
Proof.
  induction 1 as [|ep sinks eps ls Hep Heps IH]; intros acc w; simpl.
  - exists w. now rewrite app_nil_r.
  - destruct (plugin_turn_outcome run_options acc sinks ep w Hep) as [w1 Hw1].
    rewrite (bind_run_Ok _ _ _ _ _ Hw1).
    destruct (IH (acc ++ sinks)%list w1) as [w' Hw'].
    exists w'. now rewrite Hw', <- app_assoc.
Qed.

Lemma register_found (key : string) (registry : gmap string (list EntryPoint))
    (run_options : pyval) (eps : list EntryPoint) (w : world) :
  registry !! key = Some eps ->
  register_stats_writer_plugins key registry run_options w
  = plugin_loop run_options [] eps w.
Proof.
  intros H. unfold register_stats_writer_plugins.
  rewrite bool_decide_eq_false_2.
  - rewrite H. reflexivity.
  - intros Hn. apply Hn, elem_of_dom. eauto.
Qed.

Lemma register_absent (key : string) (registry : gmap string (list EntryPoint))
    (run_options : pyval) (w : world) :
  key ∉ dom registry ->
  register_stats_writer_plugins key registry run_options w
  = get_default_stats_writers run_options
      (logged WARNING (missing_entry_points_message key) w).
Proof.
  intros H. unfold register_stats_writer_plugins.
  rewrite bool_decide_eq_true_2 by assumption. reflexivity.
Qed.

(** ** Lengths, and the sample entry points *)

Lemma length_concat_sum {A : Type} (ls : list (list A)) :
  length (concat ls) = sum_list (length <$> ls).
Proof.
  induction ls as [|l ls IH]; csimpl; [reflexivity|].
  now rewrite length_app, IH.
Qed.

Lemma sum_lengths_delete {A : Type} (ls : list (list A)) :
  forall i l, ls !! i = Some l ->
    sum_list (length <$> ls) = length l + sum_list (length <$> delete i ls).
Proof.
  induction ls as [|l0 ls IH]; intros [|i] l H; csimpl in *; try discriminate.
  - injection H as ->. reflexivity.
  - rewrite (IH i l H). lia.
Qed.

Lemma default_plugin_Ok (run_options : pyval) (w w' : world) (r : plugin_value) :
  default_plugin run_options w = (Ok r, w') ->
  exists write_path clear_past_data config,
    r = Writers [ TensorboardWriter write_path clear_past_data hidden_keys;
                  GaugeWriter; ConsoleWriter; WandbWriter config ].
Proof.
  unfold default_plugin. intros (l & w1 & H & [= <- <-])%bind_Ok.
  apply get_default_Ok in H as (cs & p & rs & c & config & w0 & _ & _ & _ & _ & _ & ->). eauto.
Qed.

Lemma sample_default_well_behaved :
  well_behaved (sample_run_options true) default_entry_point sample_defaults.
Proof.
  intros w. exists default_plugin, w, (Writers sample_defaults). eexists.
  split; [reflexivity|]. split; [|reflexivity]. vm_compute. reflexivity.
Defined.

Lemma tracker_well_behaved (run_options : pyval) :
  well_behaved run_options tracker_entry_point tracker_sinks.
Proof.
  intros w. eexists _, w, _, w. repeat split.
Defined.

Lemma broken_always_fails (run_options : pyval) :
  always_fails run_options broken_entry_point.
Proof. intros w. exists (Other "ImportError"), w. left. reflexivity. Defined.

Lemma raising_always_fails (run_options : pyval) :
  always_fails run_options raising_entry_point.
Proof.
  intros w. exists (Other "RuntimeError"), w. right. eexists _, w. split; reflexivity.
Defined.

Lemma extract_wf (run_options : pyval) (d : dict) :
  extract run_options = Ok d -> dict_wf d.
Proof.
  unfold extract.
  destruct (getattr run_options "behaviors") as [b| |]; try discriminate.
  cbv beta iota delta [mbind result_bind].
  destruct (items b) as [entries| |]; try discriminate.
  destruct (extract_behaviors_cases entries [] dict_wf_nil) as [[_ (d1 & -> & Hd1)] | [_ ->]];
    [|discriminate].
  destruct (extract_settings_cases run_options settings_list d1 Hd1)
    as [[_ (d2 & -> & Hd2 & _)] | [_ ->]]; [|discriminate].
  now intros [= <-].
Qed.

Lemma flatten_Ok (run_options : pyval) (w w' : world) (config : dict) :
  flatten run_options w = (Ok config, w') ->
  exists d, extract run_options = Ok d /\ config = to_json_serializable d.
Proof.
  rewrite flatten_run. destruct (extract run_options) as [d| |]; try discriminate.
  intros [= <- _]. eauto.
Qed.

(** The scanner undoes the encoder, one character at a time. *)
Lemma scan_escape_char (c : ascii) (t : string) :
  json_scanstring (json_escape_char c +:+ t)
  = (p ← json_scanstring t; Ok (String c (fst p), snd p)).
Proof. destruct c as [[] [] [] [] [] [] [] []]; reflexivity. Qed.

Lemma append_assoc (a b c : string) : (a +:+ b) +:+ c = a +:+ (b +:+ c).
Proof.
  induction a as [|x a IH]; [reflexivity|].
  change (String x ((a +:+ b) +:+ c) = String x (a +:+ (b +:+ c))).
  now rewrite IH.
Qed.

Lemma scan_escape (s rest : string) :
  json_scanstring (json_escape s +:+ String dquote rest) = Ok (s, rest).
Proof.
  induction s as [|c s IH].
  - reflexivity.
  - change (json_escape (String c s)) with (json_escape_char c +:+ json_escape s).
    rewrite append_assoc, scan_escape_char, IH. reflexivity.
Qed.

(** Every str goes through the encoder and comes back from the decoder. *)
Lemma json_roundtrip_str (s : string) : json_loads (json_string s) = Ok (PyStr s).
Proof.
  unfold json_string, json_loads.
  change (Ascii.eqb dquote dquote) with true. cbv iota.
  rewrite scan_escape. reflexivity.
Qed.

Lemma str_serializer_safe (v : pyval) : is_str v = true -> serializer_safe v.
Proof.
  intros [s ->]%is_str_inv. exists (json_string s), (PyStr s).
  split; [reflexivity | apply json_roundtrip_str].
Qed.

Lemma default_plugin_Raise (run_options : pyval) (w : world) (e : exn) :
  fst (get_default_stats_writers run_options w) = Raise e ->
  exists w', default_plugin run_options w = (Raise e, w').
Proof.
  unfold default_plugin, mbind, M_bind.
  destruct (get_default_stats_writers run_options w) as [r w']. simpl. intros ->. eauto.
Qed.

Lemma clear_of_settings_spec (k : string) :
  clear_of_settings k = true ->
  forall p, p ∈ settings_list -> String.prefix (p +:+ "_") k = false.
Proof.
  unfold clear_of_settings. intros H p Hp.
  apply list_elem_of_In in Hp.
  pose proof (proj1 (forallb_forall _ _) H p Hp) as Hk.
  now apply negb_true_iff in Hk.
Qed.

(** ** The flattening on a live object *)

Lemma follows_bind {A B A' B' : Type} (o : pyval) (R : A -> B -> Prop) (R' : A' -> B' -> Prop)
    (m : L A) (k : A -> L A') (r : result B) (g : B -> result B') :
  follows o R m r ->
  (forall a b, R a b -> follows o R' (k a) (g b)) ->
  follows o R' (m ≫= k) (r ≫= g).
Proof.
  intros Hm Hk s Hs. destruct (Hm s Hs) as (ra & Hrun & Hra).
  unfold mbind at 1, L_bind. rewrite Hrun.
  destruct Hra as [a b Hab | e |].
  - exact (Hk a b Hab s Hs).
  - eexists. split; [reflexivity | constructor].
  - eexists. split; [reflexivity | constructor].
Qed.

Lemma follows_ret {A B : Type} (o : pyval) (R : A -> B -> Prop) (a : A) (b : B) :
  R a b -> follows o R (mret a) (Ok b).
Proof. intros H s _. exists (Ok a). split; [reflexivity | now constructor]. Qed.

(** A step that gives [a] and leaves the state alone, before a computation
    that follows. *)
Lemma follows_after {A A' B' : Type} (o : pyval) (R' : A' -> B' -> Prop)
    (m : L A) (k : A -> L A') (a : A) (r : result B') :
  (forall s, object s = o -> m s = (Ok a, s)) ->
  follows o R' (k a) r ->
  follows o R' (m ≫= k) r.
Proof.
  intros Hm Hk s Hs. unfold mbind, L_bind. rewrite (Hm s Hs). exact (Hk s Hs).
Qed.

Lemma value_run (o : pyval) (x : var) (v : pyval) :
  held o x = Ok v -> forall s, object s = o -> value x s = (Ok v, s).
Proof. intros H s <-. unfold value. now rewrite H. Qed.

Lemma reach_app (o : pyval) (way rest : list step) :
  reach o (way ++ rest) = (v ← reach o way; reach v rest).
Proof.
  revert o. induction way as [|[name|index] way IH]; intros o; [reflexivity| |].
  - cbn [app reach]. destruct (getattr o name) as [a| |]; [apply IH | reflexivity..].
  - cbn [app reach]. destruct o; try reflexivity.
    destruct (_ !! index) as [kv|]; [apply IH | reflexivity].
Qed.

Lemma getattr_follows (o : pyval) (x : var) (obj : pyval) (name : string) :
  held o x = Ok obj ->
  follows o (fun y a => held o y = Ok a) (live_getattr x name) (getattr obj name).
Proof.
  intros Hx s Hs. destruct x as [way | v]; simpl in Hx.
  - assert (Hr : reach o (way ++ [Attr name]) = getattr obj name).
    { rewrite reach_app, Hx. cbn [mbind result_bind reach].
      now destruct (getattr obj name). }
    unfold live_getattr, mbind, L_bind, value. rewrite Hs. cbn [held].
    rewrite Hr. destruct (getattr obj name) as [a| |] eqn:Ha.
    + eexists. split; [reflexivity|]. constructor. simpl. now rewrite Hr.
    + eexists. split; [reflexivity | constructor].
    + eexists. split; [reflexivity | constructor].
  - injection Hx as ->. unfold live_getattr, mbind, L_bind, just.
    destruct (getattr obj name) as [a| |].
    + eexists. split; [reflexivity|]. now constructor.
    + eexists. split; [reflexivity | constructor].
    + eexists. split; [reflexivity | constructor].
Qed.

Lemma dir_run (o : pyval) (x : var) (obj : pyval) :
  held o x = Ok obj ->
  forall s, object s = o -> live_dir x s = (Ok (dir obj), s).
Proof.
  intros H s Hs. unfold live_dir, mbind, L_bind. now rewrite (value_run o x obj H s Hs).
Qed.

Lemma callable_run (o : pyval) (x : var) (v : pyval) :
  held o x = Ok v ->
  forall s, object s = o -> live_callable x s = (Ok (callable v), s).
Proof.
  intros H s Hs. unfold live_callable, mbind, L_bind.
  now rewrite (value_run o x v H s Hs).
Qed.

Lemma snapshot_setitem (o : pyval) (k : pyval) (x : var) (v : pyval)
    (d : live_dict) (d' : dict) :
  held o x = Ok v -> snapshot o d d' ->
  snapshot o (live_setitem k x d) (dict_setitem k v d').
Proof.
  intros Hx. induction 1 as [|[k1 x1] [k2 v2] d d' [Hk Hv] Hd IH]; simpl in *.
  - repeat constructor; assumption.
  - subst k2. destruct (key_eqb k1 k).
    + constructor; [split; [reflexivity | exact Hx] | exact Hd].
    + constructor; [split; [reflexivity | exact Hv] | exact IH].
Qed.

Lemma snapshot_update (o : pyval) (other : live_dict) (other' : dict) :
  snapshot o other other' ->
  forall d d', snapshot o d d' ->
    snapshot o (live_update d other) (dict_update d' other').
Proof.
  induction 1 as [|[k1 x1] [k2 v2] other other' [Hk Hv] Ho IH]; intros d d' Hd;
    [exact Hd|].
  simpl in Hk, Hv. subst k2. apply IH. now apply snapshot_setitem.
Qed.

Lemma snapshot_prefixed (o : pyval) (p : string) (d : live_dict) (d' : dict) :
  snapshot o d d' -> snapshot o (live_prefixed p d) (prefixed p d').
Proof.
  intros H. unfold live_prefixed, prefixed, live_dict_of, dict_of.
  apply snapshot_update; [|constructor].
  induction H as [|[k1 x1] [k2 v2] d d' [Hk Hv] Hd IH]; simpl in *; constructor.
  - subst k2. split; [reflexivity | exact Hv].
  - exact IH.
Qed.

Lemma get_attributes_from_follows (o : pyval) (x : var) (obj : pyval)
    (names : list string) :
  held o x = Ok obj ->
  forall acc acc', snapshot o acc acc' ->
    follows o (snapshot o) (live_get_attributes_from x names acc)
      (get_attributes_from obj names acc').
Proof.
  intros Hx. induction names as [|attr rest IH]; intros acc acc' Hacc.
  - now apply follows_ret.
  - cbn [live_get_attributes_from get_attributes_from].
    eapply follows_bind; [apply (getattr_follows o x obj attr Hx)|].
    intros a av Ha. cbv beta.
    eapply follows_after; [apply (callable_run o a av Ha)|].
    destruct (negb (callable av) && negb (String.prefix "__" attr)).
    + eapply follows_bind; [apply (getattr_follows o x obj attr Hx)|].
      intros y v Hy. apply IH. now apply snapshot_setitem.
    + now apply IH.
Qed.

Lemma get_attributes_follows (o : pyval) (x : var) (obj : pyval) :
  held o x = Ok obj ->
  follows o (snapshot o) (live_get_attributes x) (get_attributes obj).
Proof.
  intros Hx. unfold live_get_attributes, get_attributes.
  eapply follows_after; [apply (dir_run o x obj Hx)|].
  apply get_attributes_from_follows; [exact Hx | constructor].
Qed.

Lemma items_follows (o : pyval) (x : var) (v : pyval) :
  held o x = Ok v -> follows o (snapshot o) (live_items x) (items v).
Proof.
  intros Hx. unfold live_items.
  eapply follows_after; [apply (value_run o x v Hx)|].
  assert (Hnew : forall r : result dict,
    follows o (snapshot o)
      (entries ← just r;
       mret (List.map (fun kv => (fst kv, New (snd kv))) entries)) r).
  { intros r s _. unfold mbind, L_bind, just. destruct r as [entries| |].
    - eexists. split; [reflexivity|]. constructor.
      induction entries as [|kv entries IH]; constructor; [split; reflexivity | exact IH].
    - eexists. split; [reflexivity | constructor].
    - eexists. split; [reflexivity | constructor]. }
  destruct v as [| | | | | |d| |]; try apply Hnew.
  destruct x as [way | v']; [|apply Hnew].
  apply follows_ret. simpl in Hx. cbn [items].
  apply Forall2_same_length_lookup_2; [now rewrite length_imap|].
  intros i kx kv Hi Hkv. rewrite list_lookup_imap, Hkv in Hi. injection Hi as <-.
  split; [reflexivity|]. simpl. rewrite reach_app, Hx.
  cbn [mbind result_bind reach]. now rewrite Hkv.
Qed.

Lemma extract_behavior_follows (o : pyval) (x : var) (bs : pyval)
    (acc : live_dict) (acc' : dict) :
  held o x = Ok bs -> snapshot o acc acc' ->
  follows o (snapshot o) (live_extract_behavior acc x) (extract_behavior acc' bs).
Proof.
  intros Hx Hacc. unfold live_extract_behavior, extract_behavior.
  eapply follows_bind; [apply (getattr_follows o x bs _ Hx)|].
  intros hp hpv Hhp. cbv beta.
  eapply follows_bind; [apply (get_attributes_follows o hp hpv Hhp)|].
  intros hd hd' Hhd. cbv beta.
  eapply follows_bind; [apply (get_attributes_follows o x bs Hx)|].
  intros bd bd' Hbd. cbv beta.
  apply follows_ret.
  apply snapshot_update; [now apply snapshot_prefixed|].
  apply snapshot_update; [now apply snapshot_prefixed | exact Hacc].
Qed.

Lemma extract_behaviors_follows (o : pyval) (entries : live_dict) (entries' : dict) :
  snapshot o entries entries' ->
  forall acc acc', snapshot o acc acc' ->
    follows o (snapshot o) (live_extract_behaviors acc entries)
      (extract_behaviors acc' entries').
Proof.
  induction 1 as [|[k1 x1] [k2 v2] entries entries' [Hk Hv] He IH]; intros acc acc' Hacc.
  - now apply follows_ret.
  - cbn [live_extract_behaviors extract_behaviors].
    eapply follows_bind; [apply (extract_behavior_follows o x1 v2 acc acc' Hv Hacc)|].
    intros d d' Hd. now apply IH.
Qed.

Lemma extract_settings_follows (o : pyval) (x : var) (ro : pyval)
    (names : list string) :
  held o x = Ok ro ->
  forall acc acc', snapshot o acc acc' ->
    follows o (snapshot o) (live_extract_settings x acc names)
      (extract_settings ro acc' names).
Proof.
  intros Hx. induction names as [|n names IH]; intros acc acc' Hacc.
  - now apply follows_ret.
  - cbn [live_extract_settings extract_settings].
    apply (follows_bind o (snapshot o)); [|intros d d' Hd; now apply IH].
    unfold live_extract_setting, extract_setting.
    eapply follows_bind; [apply (getattr_follows o x ro n Hx)|].
    intros st stv Hst. cbv beta.
    eapply follows_bind; [apply (get_attributes_follows o st stv Hst)|].
    intros sd sd' Hsd. cbv beta.
    apply follows_ret. apply snapshot_update; [now apply snapshot_prefixed | exact Hacc].
Qed.

Lemma extract_follows (o : pyval) (x : var) (ro : pyval) :
  held o x = Ok ro ->
  follows o (snapshot o) (live_extract x) (extract ro).
Proof.
  intros Hx. unfold live_extract, extract.
  eapply follows_bind; [apply (getattr_follows o x ro _ Hx)|].
  intros b bv Hb. cbv beta.
  eapply follows_bind; [apply (items_follows o b bv Hb)|].
  intros entries entries' He. cbv beta.
  eapply follows_bind; [apply (extract_behaviors_follows o _ _ He); constructor|].
  intros d d' Hd. now apply extract_settings_follows.
Qed.

Lemma values_run (o : pyval) (d : live_dict) (d' : dict) :
  snapshot o d d' -> forall s, object s = o -> live_values d s = (Ok d', s).
Proof.
  induction 1 as [|[k1 x1] [k2 v2] d d' [Hk Hv] Hd IH]; intros s Hs; [reflexivity|].
  simpl in Hk, Hv. subst k2. cbn [live_values]. unfold mbind, L_bind.
  rewrite (value_run o x1 v2 Hv s Hs). fold (@mbind L _). unfold mbind, L_bind.
  now rewrite (IH s Hs).
Qed.

Lemma snapshot_fresh (o : pyval) (d : dict) : snapshot o (fresh d) d.
Proof. induction d as [|kv d IH]; constructor; [split; reflexivity | exact IH]. Qed.

Lemma fresh_setitem (k v : pyval) (d : dict) :
  live_setitem k (New v) (fresh d) = fresh (dict_setitem k v d).
Proof.
  induction d as [|[k' v'] d IH]; [reflexivity|]. simpl.
  destruct (key_eqb k' k); [reflexivity|]. simpl. now rewrite IH.
Qed.

Lemma to_json_serializable_from_run (o : pyval) (d : live_dict) (d' : dict) :
  snapshot o d d' ->
  forall acc s, object s = o ->
    live_to_json_serializable_from d (fresh acc) s
    = (Ok (fresh (dict_update acc (List.map stringify d'))), s).
Proof.
  induction 1 as [|[k1 x1] [k2 v2] d d' [Hk Hv] Hd IH]; intros acc s Hs; [reflexivity|].
  simpl in Hk, Hv. subst k2. cbn [live_to_json_serializable_from].
  unfold mbind, L_bind. rewrite (value_run o x1 v2 Hv s Hs).
  rewrite !is_jsonable_false. cbn [negb]. rewrite fresh_setitem.
  rewrite (IH _ s Hs). reflexivity.
Qed.

Lemma flatten_follows (o : pyval) (x : var) (ro : pyval) (s : live_state) :
  object s = o -> held o x = Ok ro ->
  live_flatten x s
  = (match fst (flatten ro (console s)) with
     | Ok config => Ok (fresh config)
     | Raise e => Raise e
     | Opaque => Opaque
     end,
     LiveState o (snd (flatten ro (console s)))).
Proof.
  intros Hs Hx. rewrite flatten_run. unfold live_flatten.
  destruct (extract_follows o x ro Hx s Hs) as (ra & Hrun & Hra).
  unfold mbind at 1, L_bind. rewrite Hrun.
  destruct Hra as [d d' Hd | e |]; cbn [fst snd];
    [| destruct s; simpl in Hs; now subst o ..].
  unfold live_print_dict, live_to_json_serializable, mbind, L_bind.
  rewrite (values_run o d d' Hd s Hs).
  unfold on_console, print. cbn [object console].
  pose proof (to_json_serializable_from_run o d d' Hd []) as Hto.
  change (fresh []) with (@nil (pyval * var)) in Hto.
  rewrite Hto by exact Hs.
  rewrite (values_run o _ _ (snapshot_fresh o _)) by exact Hs.
  cbn [object console stdout log mret L_ret].
  rewrite to_json_serializable_stringify, <- app_assoc, Hs. reflexivity.
Qed.

(** A variable that leads nowhere has no attribute. *)
Lemma getattr_unheld (o : pyval) (x : var) (name : string) (s : live_state) :
  object s = o ->
  (forall ro, held o x <> Ok ro) ->
  forall y, fst (live_getattr x name s) <> Ok y.
Proof.
  intros Hs Hx y. destruct x as [way | v]; [|now destruct (Hx v)].
  unfold live_getattr, mbind, L_bind, value. cbn [held].
  rewrite Hs, reach_app. simpl in Hx.
  destruct (reach o way) as [ro| |]; [now destruct (Hx ro) | discriminate..].
Qed.

Lemma flatten_held (x : var) (s s1 : live_state) (first : live_dict) :
  live_flatten x s = (Ok first, s1) ->
  exists ro, held (object s) x = Ok ro.
Proof.
  intros H. destruct (held (object s) x) as [ro| |] eqn:Hx; [eauto | exfalso..].
  all: assert (Hno : forall y, fst (live_getattr x "behaviors" s) <> Ok y)
         by (apply (getattr_unheld (object s)); [reflexivity|];
             intros ro; rewrite Hx; discriminate).
  all: unfold live_flatten, live_extract in H.
  all: unfold mbind, L_bind in H.
  all: destruct (live_getattr x "behaviors" s) as [[y| |] s']; try discriminate.
  all: now apply (Hno y).
Qed.

(** What is written to the object between two runs shows in the second map:
    the flattening reads the object anew each time. *)
Lemma flatten_after_a_write :
  exists first second s1 s2 s3,
    live_flatten (At []) live_sample = (Ok first, s1)
    /\ widen (At []) s1 = (Ok tt, s2)
    /\ live_flatten (At []) s2 = (Ok second, s3)
    /\ In (PyStr "engine_settings_width", New (PyStr "84")) first
    /\ In (PyStr "engine_settings_width", New (PyStr "128")) second.
Proof.
  eexists _, _, _, _, _.
  split; [vm_compute; reflexivity|].
  split; [vm_compute; reflexivity|].
  split; [vm_compute; reflexivity|].
  split; repeat first [left; reflexivity | right].
Qed.

(** * The properties of the specification *)

(** C1: for every RunOptions, when the stats-writer namespace key is absent
    from the keys of the host registry, [register_stats_writer_plugins] logs
    a warning and hands back what [get_default_stats_writers] builds: a
    result it returns is exactly the four default sinks in the order
    tensorboard, gauge, console, experiment tracker, with the warning in the
    log, and it does return on a fully populated RunOptions. *)
Theorem register_without_entry_points
    (key : string) (registry : gmap string (list EntryPoint))
    (run_options : pyval) (w : world) :
  key ∉ dom registry ->
  register_stats_writer_plugins key registry run_options w
  = get_default_stats_writers run_options
      (logged WARNING (missing_entry_points_message key) w)
  /\ (forall l w',
        register_stats_writer_plugins key registry run_options w = (Ok l, w') ->
        (exists write_path flag config,
           l = [ TensorboardWriter write_path flag hidden_keys;
                 GaugeWriter; ConsoleWriter; WandbWriter config ])
        /\ log w' = (log w ++ [(WARNING, missing_entry_points_message key)])%list)
  /\ (fully_populated run_options = true ->
      exists l w', register_stats_writer_plugins key registry run_options w = (Ok l, w')).
Proof.
  intros Habsent. rewrite (register_absent key registry run_options w Habsent).
  split; [reflexivity | split].
  - intros l w' H. split.
    + apply get_default_Ok in H as (cs & p & r & c & config & w0 & _ & _ & _ & _ & _ & ->).
      eauto.
    + now apply keeps_log_get_default in H.
  - apply get_default_total.
Qed.

Lemma register_without_entry_points_witness :
  exists l w',
    register_stats_writer_plugins sample_key ∅ (sample_run_options false) empty_world
    = (Ok l, w').
Proof.
  apply (register_without_entry_points sample_key ∅ (sample_run_options false) empty_world).
  - rewrite dom_empty_L. apply not_elem_of_empty.
  - reflexivity.
Defined.

(** C2: when the namespace key is present and every registered entry point
    loads and returns its sinks, [register_stats_writer_plugins] returns the
    concatenation of those sink sequences in discovery order, with no
    defaults put in front: the length is the sum of the k_i, and when the
    entry point of the defaults is one of them its four sinks are among the
    sequences, so that the length is 4 plus the sum over the others. *)
Theorem register_concatenates_plugins
    (key : string) (registry : gmap string (list EntryPoint))
    (run_options : pyval) (eps : list EntryPoint) (ls : list (list StatsWriter))
    (w : world) :
  registry !! key = Some eps ->
  Forall2 (well_behaved run_options) eps ls ->
  (exists w', register_stats_writer_plugins key registry run_options w
              = (Ok (concat ls), w'))
  /\ length (concat ls) = sum_list (length <$> ls)
  /\ (forall i ep, eps !! i = Some ep -> loads_default ep ->
        (exists write_path flag config,
           ls !! i = Some [ TensorboardWriter write_path flag hidden_keys;
                            GaugeWriter; ConsoleWriter; WandbWriter config ])
        /\ length (concat ls) = 4 + sum_list (length <$> delete i ls)).
Proof.
  intros Hkey Hwell. split; [|split].
  - rewrite (register_found key registry run_options eps w Hkey).
    apply (plugin_loop_outcomes run_options eps ls).
    eapply Forall2_impl; [exact Hwell|]. intros ep sinks H. now left.
  - apply length_concat_sum.
  - intros i ep Hi Hdef.
    destruct (Forall2_lookup_l _ _ _ _ _ Hwell Hi) as (sinks & Hsinks & Hep).
    destruct (Hep w) as (f & w1 & r & w2 & Hl & Hf & He).
    rewrite (Hdef w) in Hl. injection Hl as <- <-.
    apply default_plugin_Ok in Hf as (p & rs & config & ->).
    injection He as <-. split; [eauto|].
    rewrite length_concat_sum, (sum_lengths_delete ls i _ Hsinks). reflexivity.
Qed.

Lemma register_concatenates_plugins_witness :
  exists w',
    register_stats_writer_plugins sample_key
      {[ sample_key := [tracker_entry_point; default_entry_point] ]}
      (sample_run_options true) empty_world
    = (Ok (tracker_sinks ++ sample_defaults)%list, w').
Proof.
  destruct (register_concatenates_plugins sample_key
              {[ sample_key := [tracker_entry_point; default_entry_point] ]}
              (sample_run_options true)
              [tracker_entry_point; default_entry_point]
              [tracker_sinks; sample_defaults] empty_world) as [[w' H] _].
  - reflexivity.
  - repeat apply List.Forall2_cons; [| | apply List.Forall2_nil].
    + apply tracker_well_behaved.
    + apply sample_default_well_behaved.
  - exists w'. exact H.
Defined.

(** C3: with the namespace key present, no exception leaves
    [register_stats_writer_plugins]; an entry point whose load or whose
    function raises adds no sink, the failure goes to the log at level
    ERROR, and the loop goes on with the entry points that follow, so the
    result is the concatenation of what the other entry points return. *)
Theorem plugin_failures_are_absorbed
    (key : string) (registry : gmap string (list EntryPoint))
    (run_options : pyval) (eps : list EntryPoint) (w : world) :
  registry !! key = Some eps ->
  (forall e, fst (register_stats_writer_plugins key registry run_options w) <> Raise e)
  /\ (forall pre ep post acc w1 e w2,
        eps = (pre ++ ep :: post)%list ->
        plugin_loop run_options [] pre w = (Ok acc, w1) ->
        fails run_options ep (logged DEBUG (initializing_message ep) w1) e w2 ->
        register_stats_writer_plugins key registry run_options w
        = plugin_loop run_options acc post (logged ERROR (failure_message ep) w2))
  /\ (forall ls, Forall2 (outcome run_options) eps ls ->
        exists w', register_stats_writer_plugins key registry run_options w
                   = (Ok (concat ls), w')).
Proof.
  intros Hkey. rewrite (register_found key registry run_options eps w Hkey).
  split; [|split].
  - intros e. apply plugin_loop_no_raise.
  - intros pre ep post acc w1 e w2 -> Hpre Hfail.
    rewrite plugin_loop_app, (bind_run_Ok _ _ _ _ _ Hpre). simpl.
    apply initialize_plugin_fails in Hfail.
    now rewrite (bind_run_Ok _ _ _ _ _ (plugin_turn_Raise _ acc _ _ _ _ Hfail)).
  - intros ls Hls. apply (plugin_loop_outcomes run_options eps ls Hls []).
Qed.

Lemma plugin_failures_are_absorbed_witness :
  exists w',
    register_stats_writer_plugins sample_key
      {[ sample_key := [broken_entry_point; tracker_entry_point; raising_entry_point] ]}
      PyNone empty_world
    = (Ok tracker_sinks, w').
Proof.
  destruct (plugin_failures_are_absorbed sample_key
              {[ sample_key := [broken_entry_point; tracker_entry_point; raising_entry_point] ]}
              PyNone [broken_entry_point; tracker_entry_point; raising_entry_point]
              empty_world) as (_ & _ & H).
  - reflexivity.
  - apply (H [[]; tracker_sinks; []]).
    repeat apply List.Forall2_cons; [| | | apply List.Forall2_nil].
    + right. split; [apply broken_always_fails | reflexivity].
    + left. apply tracker_well_behaved.
    + right. split; [apply raising_always_fails | reflexivity].
Defined.

(** C4, on the code: the claim keeps a key or a value unchanged when the
    JSON probe succeeds on it.  The encoder accepts the int 1024, yet
    [is_jsonable] answers False (the module never imports [json]), and the
    coercion turns the value into the str '1024', as does the map the
    default factory hands to the tracker sink. *)
Example coercion_stringifies_serializable_value :
  json_dumps (PyInt 1024) = Ok "1024"
  /\ is_jsonable (PyInt 1024) = false
  /\ to_json_serializable [(PyStr "batch_size", PyInt 1024)]
     = [(PyStr "batch_size", PyStr "1024")]
  /\ (exists d config,
        extract (sample_run_options true) = Ok d
        /\ dict_get (PyStr "batch_size") d = Some (PyInt 1024)
        /\ In (WandbWriter config) sample_defaults
        /\ dict_get (PyStr "batch_size") config = Some (PyStr "1024")).
Proof.
  do 3 (split; [reflexivity|]).
  unfold sample_defaults. eexists _, _.
  split; [vm_compute; reflexivity|].
  split; [reflexivity|].
  split; [do 3 right; left; reflexivity | reflexivity].
Qed.

(** C5: [is_jsonable] returns False on every value, so
    [to_json_serializable] stores every item under the string form of its
    key with the string form of its value, every key and value of its
    result is a str, and the map the default factory gives to the tracker
    sink is the extracted one with every key and value replaced by its
    string form. *)
Theorem coercion_stringifies_everything :
  (forall x, is_jsonable x = false)
  /\ (forall d, to_json_serializable d = dict_of (List.map stringify d))
  /\ (forall d, Forall str_item (to_json_serializable d))
  /\ (forall run_options w l w' config,
        get_default_stats_writers run_options w = (Ok l, w') ->
        In (WandbWriter config) l ->
        Forall str_item config
        /\ exists d, extract run_options = Ok d /\ config = List.map stringify d).
Proof.
  split; [exact is_jsonable_false | split; [exact to_json_serializable_stringify | split]].
  - exact to_json_serializable_str_items.
  - intros run_options w l w' config H Hin.
    apply get_default_Ok in H as (cs & p & r & c & config' & w0 & _ & _ & _ & _ & Hflat & ->).
    destruct Hin as [Hin | [Hin | [Hin | [Hin | []]]]]; try discriminate.
    injection Hin as ->.
    apply flatten_Ok in Hflat as (d & Hd & ->).
    split; [apply to_json_serializable_str_items|].
    exists d. split; [assumption|]. apply to_json_serializable_map.
    exact (extract_wf run_options d Hd).
Qed.

Lemma coercion_stringifies_everything_witness :
  exists config, In (WandbWriter config) sample_defaults /\ Forall str_item config.
Proof.
  destruct coercion_stringifies_everything as (_ & _ & _ & H).
  eexists. split; [do 3 right; left; reflexivity|].
  eapply (H (sample_run_options true) empty_world sample_defaults).
  - vm_compute. reflexivity.
  - do 3 right. left. reflexivity.
Defined.



(** C7: when the flattening of a RunOptions succeeds, every key and every
    value of the resulting map is serializer-safe: the JSON encoder accepts
    it and the decoder reads the text back without an error. *)
Theorem extracted_config_is_serializer_safe
    (run_options : pyval) (w w' : world) (config : dict) :
  flatten run_options w = (Ok config, w') ->
  Forall (fun kv => serializer_safe (fst kv) /\ serializer_safe (snd kv)) config.
Proof.
  intros (d & _ & ->)%flatten_Ok.
  eapply Forall_impl; [apply to_json_serializable_str_items|].
  intros kv [Hk Hv]. split; now apply str_serializer_safe.
Qed.

Lemma extracted_config_is_serializer_safe_witness :
  exists config,
    fst (flatten (sample_run_options true) empty_world) = Ok config
    /\ Forall (fun kv => serializer_safe (fst kv) /\ serializer_safe (snd kv)) config.
Proof.
  eexists. split; [vm_compute; reflexivity|].
  eapply (extracted_config_is_serializer_safe (sample_run_options true) empty_world).
  vm_compute. reflexivity.
Defined.

(** C8: the flattening is deterministic.  Run on a RunOptions that is a
    live object, it changes nothing of the object; run a second time, in the
    state the first run left or in any state where the object is the same,
    whatever was printed or logged in between, it returns the same map, item
    for item.  That map is made of new strs only, and it is the one
    [flatten] gives for the value the RunOptions has. *)
Theorem flatten_is_deterministic
    (run_options : var) (s s1 : live_state) (first : live_dict) :
  live_flatten run_options s = (Ok first, s1) ->
  object s1 = object s
  /\ (exists s2, live_flatten run_options s1 = (Ok first, s2)
                 /\ object s2 = object s)
  /\ (forall s', object s' = object s ->
        fst (live_flatten run_options s') = Ok first)
  /\ (exists ro config,
        held (object s) run_options = Ok ro
        /\ fst (flatten ro (console s)) = Ok config
        /\ first = fresh config).
Proof.
  intros H. destruct (flatten_held _ _ _ _ H) as [ro Hro].
  assert (Hany : forall s', object s' = object s ->
            live_flatten run_options s'
            = (Ok first, LiveState (object s) (snd (flatten ro (console s'))))
              /\ exists config, fst (flatten ro (console s)) = Ok config
                                /\ first = fresh config).
  { intros s' Hs'.
    rewrite (flatten_follows (object s) run_options ro s eq_refl Hro) in H.
    rewrite (flatten_follows (object s) run_options ro s' Hs' Hro).
    rewrite !flatten_run in *. destruct (extract ro) as [d| |]; try discriminate.
    cbn [fst snd] in *. apply pair_equal_spec in H as [[= <-] _]. eauto. }
  assert (H1 : object s1 = object s).
  { destruct (Hany s eq_refl) as [Hrun _]. rewrite Hrun in H.
    now apply pair_equal_spec in H as [_ <-]. }
  split; [exact H1 | split; [|split]].
  - destruct (Hany s1 H1) as [Hrun _]. eexists. split; [exact Hrun | reflexivity].
  - intros s' Hs'. destruct (Hany s' Hs') as [Hrun _]. now rewrite Hrun.
  - destruct (Hany s eq_refl) as [_ (config & Hc & Hf)]. eauto.
Qed.

Lemma flatten_is_deterministic_witness :
  exists first s1 s2,
    live_flatten (At []) live_sample = (Ok first, s1)
    /\ live_flatten (At []) s1 = (Ok first, s2)
    /\ object s2 = object live_sample.
Proof.
  destruct (live_flatten (At []) live_sample) as [r s1] eqn:E.
  destruct r as [first| |]; try (vm_compute in E; discriminate).
  destruct (flatten_is_deterministic (At []) live_sample s1 first E)
    as (_ & (s2 & H2 & Ho) & _).
  exists first, s1, s2. auto.
Defined.

(** C9, as stated, fails: with the namespace key present and the defaults
    registered as an entry point, a RunOptions whose behavior has no
    hyperparameters makes [get_default_stats_writers] raise AttributeError,
    and [register_stats_writer_plugins] logs it and returns the empty list:
    nothing reaches its caller. *)
Lemma malformed_defaults_are_absorbed :
  missing_field malformed_run_options = true
  /\ fst (get_default_stats_writers malformed_run_options empty_world) = Raise AttributeError
  /\ register_stats_writer_plugins sample_key {[ sample_key := [default_entry_point] ]}
       malformed_run_options empty_world
     = (Ok [],
        World [ "run_options.behaviors = {'3DBall': TrainerSettings(trainer_type='ppo')}";
                "run_options.checkpoint_settings = CheckpointSettings(run_id='ppo')";
                "run_options.engine_settings = EngineSettings()";
                "run_options.environment_parameters = None";
                "run_options.env_settings = EnvironmentSettings()";
                "run_options.torch_settings = TorchSettings()" ]
              [ (DEBUG, "Initializing StatsWriter plugins: default");
                (ERROR, "Error initializing StatsWriter plugins for default. This plugin will not be used.") ]).
Proof. repeat split; vm_compute; reflexivity. Qed.

(** C9, amended: on a RunOptions missing an expected nested field
    [get_default_stats_writers] validates nothing and raises AttributeError.
    The exception reaches the caller of [register_stats_writer_plugins] when
    the namespace key is absent; when the key is present no exception
    leaves the function, and the defaults, run as an entry point, fail like
    any other plug-in. *)
Theorem malformed_run_options_fail
    (key : string) (registry : gmap string (list EntryPoint))
    (run_options : pyval) (w : world) :
  missing_field run_options = true ->
  fst (get_default_stats_writers run_options w) = Raise AttributeError
  /\ (key ∉ dom registry ->
      fst (register_stats_writer_plugins key registry run_options w) = Raise AttributeError)
  /\ (key ∈ dom registry ->
      forall e, fst (register_stats_writer_plugins key registry run_options w) <> Raise e)
  /\ always_fails run_options default_entry_point.
Proof.
  intros Hm. split; [now apply get_default_missing | split; [|split]].
  - intros Habsent. rewrite (register_absent key registry run_options w Habsent).
    now apply get_default_missing.
  - intros [eps Heps]%elem_of_dom e.
    rewrite (register_found key registry run_options eps w Heps).
    apply plugin_loop_no_raise.
  - intros w0.
    destruct (default_plugin_Raise run_options w0 AttributeError) as [w' Hw'];
      [now apply get_default_missing|].
    exists AttributeError, w'. right. exists default_plugin, w0. split; [reflexivity | exact Hw'].
Qed.

Lemma malformed_run_options_fail_witness :
  fst (register_stats_writer_plugins sample_key ∅ malformed_run_options empty_world)
  = Raise AttributeError.
Proof.
  destruct (malformed_run_options_fail sample_key ∅ malformed_run_options empty_world)
    as (_ & H & _).
  - reflexivity.
  - apply H. rewrite dom_empty_L. apply not_elem_of_empty.
Defined.

(** C10: in the turn of a behavior the attributes of its hyperparameters go
    into the map first and its own attributes after them, so a key the two
    share ends with the value of the behavior; for the last behavior, and a
    key that no settings prefix starts, that value, in its string form, is
    the one in the map the flattening returns. *)
Theorem behavior_attributes_override_hyperparameters
    (behavior_settings hyperparameters : pyval) (k : string) (vh vb : pyval) :
  getattr behavior_settings "hyperparameters" = Ok hyperparameters ->
  public_attribute hyperparameters k = Some vh ->
  public_attribute behavior_settings k = Some vb ->
  (forall acc, exists hyperparams behavior_data,
      get_attributes hyperparameters = Ok hyperparams
      /\ get_attributes behavior_settings = Ok behavior_data
      /\ extract_behavior acc behavior_settings
         = Ok (dict_update (dict_update acc hyperparams) behavior_data)
      /\ dict_get (PyStr k) (dict_update acc hyperparams) = Some vh
      /\ dict_get (PyStr k) (dict_update (dict_update acc hyperparams) behavior_data)
         = Some vb)
  /\ (forall run_options w config w' earlier behavior_name,
        flatten run_options w = (Ok config, w') ->
        getattr run_options "behaviors"
        = Ok (PyDict (earlier ++ [(behavior_name, behavior_settings)])%list) ->
        clear_of_settings k = true ->
        dict_get (PyStr k) config = Some (PyStr (py_str vb))).
Proof.
  intros Hhp Hvh Hvb.
  assert (Hstep : forall acc, exists hyperparams behavior_data,
      get_attributes hyperparameters = Ok hyperparams
      /\ get_attributes behavior_settings = Ok behavior_data
      /\ extract_behavior acc behavior_settings
         = Ok (dict_update (dict_update acc hyperparams) behavior_data)
      /\ dict_get (PyStr k) (dict_update acc hyperparams) = Some vh
      /\ dict_get (PyStr k) (dict_update (dict_update acc hyperparams) behavior_data)
         = Some vb).
  { intros acc.
    destruct (extract_behavior_run acc behavior_settings hyperparameters Hhp)
      as (hpd & bd & Hhpd & Hbd & Wh & Wb & Gh & Gb & Hrun).
    exists hpd, bd. repeat (split; [assumption|]). split.
    - now rewrite dict_get_update, Gh, Hvh.
    - now rewrite dict_get_update, Gb, Hvb. }
  split; [exact Hstep|].
  intros run_options w config w' earlier behavior_name Hflat Hb Hk.
  apply flatten_Ok in Hflat as (d & Hd & ->).
  pose proof (extract_wf run_options d Hd) as Wd.
  rewrite (to_json_serializable_map d Wd), dict_get_stringify by apply Wd.
  enough (dict_get (PyStr k) d = Some vb) as -> by reflexivity.
  unfold extract in Hd. rewrite Hb in Hd.
  cbv beta iota delta [mbind result_bind items] in Hd.
  rewrite extract_behaviors_app in Hd.
  cbv beta iota delta [mbind result_bind] in Hd.
  destruct (extract_behaviors_cases earlier [] dict_wf_nil) as [[_ (d1 & H1 & Wd1)] | [_ H1]];
    rewrite H1 in Hd; [|discriminate].
  destruct (Hstep d1) as (hpd & bd & _ & _ & Hrun & _ & Hget).
  cbn [extract_behaviors] in Hd. rewrite Hrun in Hd.
  destruct (extract_behavior_cases d1 behavior_settings Wd1) as [[_ (d2 & H2 & Wd2)] | [_ H2]];
    rewrite Hrun in H2; [|discriminate].
  injection H2 as H2. rewrite H2 in Hd, Hget.
  cbv beta iota delta [mbind result_bind] in Hd. cbn [extract_behaviors] in Hd.
  destruct (extract_settings_cases run_options settings_list d2 Wd2)
    as [[_ (d3 & H3 & _ & Hkeep)] | [_ H3]]; rewrite H3 in Hd; [|discriminate].
  injection Hd as <-. rewrite Hkeep; [exact Hget|].
  now apply clear_of_settings_spec.
Qed.

Lemma behavior_attributes_override_hyperparameters_witness :
  exists config,
    fst (flatten clash_run_options empty_world) = Ok config
    /\ dict_get (PyStr "checkpoint_interval") config = Some (PyStr "500000").
Proof.
  destruct (behavior_attributes_override_hyperparameters clash_settings
              clash_hyperparameters "checkpoint_interval" (PyInt 1000) (PyInt 500000))
    as [_ H]; try reflexivity.
  eexists. split; [vm_compute; reflexivity|].
  eapply (H clash_run_options empty_world _ _ [(PyStr "3DBall", ball_settings)]
            (PyStr "Walker")).
  - vm_compute. reflexivity.
  - reflexivity.
  - reflexivity.
Defined.

(** * Further properties of the code *)

(** ** The order of [dir] *)

Lemma ascii_compare_N (a b : ascii) :
  Ascii.compare a b = N.compare (N_of_ascii a) (N_of_ascii b).
Proof. reflexivity. Qed.

Lemma ascii_compare_lt_trans (a b c : ascii) :
  Ascii.compare a b = Lt -> Ascii.compare b c = Lt -> Ascii.compare a c = Lt.
Proof.
  rewrite !ascii_compare_N, !N.compare_lt_iff. lia.
Qed.

Lemma name_lt_trans (a b c : string) : name_lt a b -> name_lt b c -> name_lt a c.
Proof.
  unfold name_lt. revert b c.
  induction a as [|x a IH]; intros [|y b] [|z c]; simpl; try discriminate; try reflexivity.
  destruct (Ascii.compare x y) eqn:Exy; try discriminate.
  - apply Ascii.compare_eq_iff in Exy as ->.
    destruct (Ascii.compare y z) eqn:Eyz; try discriminate; [apply IH | reflexivity].
  - intros _. destruct (Ascii.compare y z) eqn:Eyz; try discriminate.
    + apply Ascii.compare_eq_iff in Eyz as <-. now rewrite Exy.
    + intros _. now rewrite (ascii_compare_lt_trans x y z Exy Eyz).
Qed.

Lemma name_lt_irrefl (a : string) : ~ name_lt a a.
Proof.
  unfold name_lt. induction a as [|x a IH]; simpl; [discriminate|].
  rewrite ascii_compare_N, N.compare_refl. exact IH.
Qed.

Lemma insert_name_sorted (a : string) (l : list string) :
  strictly_sorted l -> strictly_sorted (insert_name a l).
Proof.
  induction l as [|b l IH]; simpl; [intros _; split; [constructor | exact I]|].
  intros [Hb Hl]. destruct (String.compare a b) eqn:E.
  - split; assumption.
  - split; [|split; assumption].
    constructor; [exact E|].
    eapply Forall_impl; [exact Hb|]. intros c Hc. exact (name_lt_trans a b c E Hc).
  - split; [|apply IH, Hl].
    apply Forall_forall. intros c Hc%elem_of_insert_name.
    destruct Hc as [-> | Hc].
    + unfold name_lt. rewrite String.compare_antisym, E. reflexivity.
    + exact (proj1 (Forall_forall _ _) Hb c Hc).
Qed.

Lemma dir_sorted (v : pyval) : strictly_sorted (dir v).
Proof.
  unfold dir. induction (List.map fst (namespace v)) as [|a l IH]; simpl;
    [exact I | now apply insert_name_sorted].
Qed.

Lemma strictly_sorted_NoDup (l : list string) : strictly_sorted l -> NoDup l.
Proof.
  induction l as [|a l IH]; simpl; [intros _; apply NoDup_nil_2|].
  intros [Ha Hl]. apply NoDup_cons. split; [|apply IH, Hl].
  intros Hin. exact (name_lt_irrefl a (proj1 (Forall_forall _ _) Ha a Hin)).
Qed.

Lemma strictly_sorted_filter (P : string -> bool) (l : list string) :
  strictly_sorted l -> strictly_sorted (List.filter P l).
Proof.
  induction l as [|a l IH]; simpl; [auto|].
  intros [Ha Hl]. specialize (IH Hl). destruct (P a); [|exact IH].
  split; [|exact IH].
  apply List.Forall_forall. intros c [Hc _]%List.filter_In.
  exact (proj1 (List.Forall_forall _ _) Ha c Hc).
Qed.

Lemma keys_public_items (obj : pyval) (l : list string) :
  keys (omap (public_item obj) l) = PyStr <$> List.filter (kept obj) l.
Proof.
  induction l as [|a l IH]; [reflexivity|].
  csimpl. unfold public_item at 1, kept at 1.
  destruct (public_attribute obj a); csimpl; [now f_equal | exact IH].
Qed.

(** ** [get_attributes], item by item *)

Lemma get_attributes_from_items (obj : pyval) (names : list string) :
  (forall n, n ∈ names -> exists a, getattr obj n = Ok a) ->
  NoDup names ->
  forall acc, (forall n, n ∈ names -> PyStr n ∉ keys acc) ->
    get_attributes_from obj names acc
    = Ok (acc ++ omap (public_item obj) names)%list.
Proof.
  induction names as [|attr rest IH]; intros Hnames Hnd acc Hfresh.
  - simpl. now rewrite app_nil_r.
  - apply NoDup_cons in Hnd as [Hattr Hnd].
    destruct (Hnames attr) as [a Ha]; [apply elem_of_cons; now left|].
    assert (Hrest : forall n, n ∈ rest -> exists a, getattr obj n = Ok a).
    { intros n Hn. apply Hnames, elem_of_cons. now right. }
    cbn [get_attributes_from]. rewrite Ha. cbn [mbind result_bind].
    csimpl. unfold public_item at 1, public_attribute. rewrite Ha.
    destruct (negb (callable a) && negb (String.prefix "__" attr)) eqn:Hpub.
    + rewrite setitem_fresh; [| reflexivity | apply Hfresh, elem_of_cons; now left].
      rewrite (IH Hrest Hnd).
      * now rewrite <- app_assoc.
      * intros n Hn. unfold keys. rewrite List.map_app. apply not_elem_of_app. split.
        -- apply Hfresh, elem_of_cons. now right.
        -- simpl. intros [= ->]%list_elem_of_singleton. contradiction.
    + apply (IH Hrest Hnd). intros n Hn. apply Hfresh, elem_of_cons. now right.
Qed.

Lemma get_attributes_items (obj : pyval) :
  get_attributes obj = Ok (omap (public_item obj) (dir obj)).
Proof.
  unfold get_attributes.
  rewrite (get_attributes_from_items obj (dir obj)); [reflexivity | | |].
  - intros n. apply getattr_dir.
  - apply strictly_sorted_NoDup, dir_sorted.
  - intros n _. apply not_elem_of_nil.
Qed.

(** X1: when [get_attributes] returns, its result holds, in the order of
    [dir] and each once, the names [dir] lists whose value is not callable
    and that do not start with two underscores, each with the value
    [getattr] gives for it: no item comes from elsewhere, and no such name
    is left out. *)
Theorem get_attributes_keeps_public_attributes (obj : pyval) (d : dict) :
  get_attributes obj = Ok d ->
  d = omap (public_item obj) (dir obj)
  /\ (forall k v, (k, v) ∈ d ->
        exists n, k = PyStr n /\ n ∈ dir obj /\ getattr obj n = Ok v
                  /\ callable v = false /\ String.prefix "__" n = false)
  /\ (forall n v, n ∈ dir obj -> getattr obj n = Ok v -> callable v = false ->
        String.prefix "__" n = false -> (PyStr n, v) ∈ d).
Proof.
  rewrite get_attributes_items. intros [= <-]. split; [reflexivity | split].
  - intros k v (n & Hn & H)%list_elem_of_omap.
    unfold public_item, public_attribute in H.
    destruct (getattr obj n) as [a| |] eqn:Ha; try discriminate.
    destruct (negb (callable a) && negb (String.prefix "__" n)) eqn:Hpub; try discriminate.
    injection H as <- <-. apply andb_prop in Hpub as [H1 H2].
    apply negb_true_iff in H1, H2. exists n. auto.
  - intros n v Hn Ha Hc Hp. apply list_elem_of_omap. exists n. split; [exact Hn|].
    unfold public_item, public_attribute. now rewrite Ha, Hc, Hp.
Qed.

Lemma get_attributes_keeps_public_attributes_witness :
  exists d,
    get_attributes ppo_hyperparameters = Ok d
    /\ d = [(PyStr "batch_size", PyInt 1024); (PyStr "learning_rate", PyFloat "0.0003")]
    /\ (PyStr "batch_size", PyInt 1024) ∈ d.
Proof.
  destruct (get_attributes_keeps_public_attributes ppo_hyperparameters
              [(PyStr "batch_size", PyInt 1024); (PyStr "learning_rate", PyFloat "0.0003")])
    as (_ & _ & H); [reflexivity|].
  eexists. split; [reflexivity|]. split; [reflexivity|].
  apply (H "batch_size" (PyInt 1024)); try reflexivity.
  apply list_elem_of_In. vm_compute. auto.
Defined.

(** X2: the keys of what [get_attributes] returns are in the order of
    [dir]: strictly increasing, code point by code point, hence distinct. *)
Theorem get_attributes_keys_sorted (obj : pyval) (d : dict) :
  get_attributes obj = Ok d ->
  exists names, keys d = PyStr <$> names /\ strictly_sorted names /\ NoDup names.
Proof.
  rewrite get_attributes_items. intros [= <-].
  exists (List.filter (kept obj) (dir obj)).
  split; [apply keys_public_items|].
  assert (Hs : strictly_sorted (List.filter (kept obj) (dir obj))).
  { apply strictly_sorted_filter, dir_sorted. }
  split; [exact Hs | now apply strictly_sorted_NoDup].
Qed.

Lemma get_attributes_keys_sorted_witness :
  exists names,
    keys [(PyStr "batch_size", PyInt 1024); (PyStr "learning_rate", PyFloat "0.0003")]
    = PyStr <$> names /\ strictly_sorted names /\ NoDup names.
Proof.
  apply (get_attributes_keys_sorted ppo_hyperparameters). reflexivity.
Defined.

(** ** The coercion, once more *)

Lemma stringify_str_item (kv : pyval * pyval) : str_item kv -> stringify kv = kv.
Proof.
  destruct kv as [k v]. unfold str_item. simpl. intros [Hk Hv].
  destruct (is_str_inv k Hk) as [s ->]. destruct (is_str_inv v Hv) as [t ->]. reflexivity.
Qed.

Lemma to_json_serializable_wf (d : dict) : dict_wf (to_json_serializable d).
Proof.
  rewrite to_json_serializable_stringify. apply dict_of_is_wf.
  unfold str_keys. induction d as [|kv d IH]; simpl; constructor; [reflexivity | exact IH].
Qed.

(** X3: [to_json_serializable] is idempotent: coercing a coerced dict
    changes nothing. *)
Theorem to_json_serializable_idempotent (d : dict) :
  to_json_serializable (to_json_serializable d) = to_json_serializable d.
Proof.
  rewrite (to_json_serializable_map (to_json_serializable d))
    by apply to_json_serializable_wf.
  pose proof (to_json_serializable_str_items d) as H.
  induction H as [|kv r Hkv Hr IH]; simpl; [reflexivity|].
  now rewrite IH, stringify_str_item.
Qed.

Lemma dict_get_update_stringify (s : string) (d : dict) :
  forall acc,
    dict_get (PyStr s) (dict_update acc (List.map stringify d))
    = match last_value s d with
      | Some v => Some (PyStr (py_str v))
      | None => dict_get (PyStr s) acc
      end.
Proof.
  induction d as [|[k v] d IH]; intros acc; [reflexivity|].
  cbn [List.map]. rewrite update_cons, IH. cbn [last_value].
  destruct (last_value s d); [reflexivity|].
  cbn [stringify fst snd]. rewrite dict_get_setitem.
  now destruct (String.eqb (py_str k) s).
Qed.

Lemma length_setitem (k v : pyval) (d : dict) :
  length (dict_setitem k v d) <= S (length d).
Proof.
  induction d as [|[k' v'] d IH]; simpl; [lia|].
  destruct (key_eqb k' k); simpl; lia.
Qed.

Lemma length_update (other : dict) :
  forall d, length (dict_update d other) <= length d + length other.
Proof.
  induction other as [|kv other IH]; intros d; [simpl; lia|].
  rewrite update_cons. specialize (IH (dict_setitem (fst kv) (snd kv) d)).
  pose proof (length_setitem (fst kv) (snd kv) d). simpl. lia.
Qed.

(** X4: in the result of [to_json_serializable] the value under a str
    key is the string form of the value of the last item whose key has that
    string form (keys that differ but print alike are merged, the last one
    wins); the result has no more items than the input and its keys are
    distinct. *)
Theorem to_json_serializable_last_wins (d : dict) :
  (forall s, dict_get (PyStr s) (to_json_serializable d)
             = option_map (fun v => PyStr (py_str v)) (last_value s d))
  /\ length (to_json_serializable d) <= length d
  /\ NoDup (keys (to_json_serializable d)).
Proof.
  split; [|split].
  - intros s. rewrite to_json_serializable_stringify. unfold dict_of.
    rewrite dict_get_update_stringify. now destruct (last_value s d).
  - rewrite to_json_serializable_stringify. unfold dict_of.
    pose proof (length_update (List.map stringify d) []) as H.
    rewrite length_map in H. exact H.
  - apply to_json_serializable_wf.
Qed.

Lemma keys_stringify (d : dict) : str_keys d -> keys (List.map stringify d) = keys d.
Proof.
  unfold keys. induction 1 as [|[k v] d Hk Hs IH]; simpl; [reflexivity|].
  f_equal; [|exact IH]. destruct (is_str_inv k Hk) as [s ->]. reflexivity.
Qed.

(** X5: on the map the flattening extracts, the coercion keeps the keys:
    the returned map has the same keys in the same order and as many items,
    and these keys are distinct strs. *)
Theorem flatten_keeps_the_keys
    (run_options : pyval) (w w' : world) (config : dict) :
  flatten run_options w = (Ok config, w') ->
  exists d, extract run_options = Ok d
    /\ keys config = keys d
    /\ length config = length d
    /\ NoDup (keys config)
    /\ Forall (fun k => is_str k = true) (keys config).
Proof.
  intros (d & Hd & ->)%flatten_Ok. exists d.
  destruct (extract_wf run_options d Hd) as [Hs Hn].
  rewrite (to_json_serializable_map d (conj Hs Hn)), (keys_stringify d Hs), length_map.
  repeat (split; [assumption || reflexivity|]).
  unfold keys. clear Hn Hd. induction Hs; simpl; constructor; assumption.
Qed.

Lemma flatten_keeps_the_keys_witness :
  exists config d,
    fst (flatten (sample_run_options true) empty_world) = Ok config
    /\ extract (sample_run_options true) = Ok d
    /\ keys config = keys d.
Proof.
  destruct (flatten_keeps_the_keys (sample_run_options true) empty_world
              (snd (flatten (sample_run_options true) empty_world))
              (match fst (flatten (sample_run_options true) empty_world) with
               | Ok c => c | _ => [] end)) as (d & Hd & Hk & _).
  - vm_compute. reflexivity.
  - eexists _, d. split; [vm_compute; reflexivity|]. split; assumption.
Defined.

(** ** What [get_default_stats_writers] does to the world *)

Lemma prints_only_bind {A B : Type} (m : M A) (k : A -> M B) :
  prints_only m -> (forall a, prints_only (k a)) -> prints_only (m ≫= k).
Proof.
  intros Hm Hk w r w'. unfold mbind, M_bind.
  destruct (m w) as [[a|e|] w1] eqn:E; intros H.
  - destruct (Hm _ _ _ E) as [Hl [l1 Hs]]. destruct (Hk a _ _ _ H) as [Hl' [l2 Hs']].
    split; [congruence|]. exists (l1 ++ l2)%list. now rewrite Hs', Hs, <- app_assoc.
  - injection H as <- <-. eapply Hm, E.
  - injection H as <- <-. eapply Hm, E.
Qed.

Lemma prints_only_lift {A : Type} (r : result A) : prints_only (lift r).
Proof. intros w r' w' [= _ <-]. split; [reflexivity|]. exists []. now rewrite app_nil_r. Qed.

Lemma prints_only_ret {A : Type} (a : A) : prints_only (mret a : M A).
Proof. intros w r' w' [= _ <-]. split; [reflexivity|]. exists []. now rewrite app_nil_r. Qed.

Lemma prints_only_print (line : string) : prints_only (print line).
Proof. intros w r' w' [= _ <-]. split; [reflexivity|]. now exists [line]. Qed.

Lemma prints_only_get_default (run_options : pyval) :
  prints_only (get_default_stats_writers run_options).
Proof.
  unfold get_default_stats_writers, print_attribute, flatten.
  repeat first
    [ apply prints_only_lift | apply prints_only_ret | apply prints_only_print
    | apply prints_only_bind; [|intros ?] ].
Qed.

(** X7: whatever its outcome, [get_default_stats_writers] hands nothing
    to the logger and only adds lines at the end of the standard output. *)
Theorem get_default_never_logs
    (run_options : pyval) (w w' : world) (r : result (list StatsWriter)) :
  get_default_stats_writers run_options w = (r, w') ->
  log w' = log w /\ exists lines, stdout w' = (stdout w ++ lines)%list.
Proof. apply prints_only_get_default. Qed.

Lemma get_default_never_logs_witness :
  log (snd (get_default_stats_writers malformed_run_options empty_world)) = []
  /\ exists lines,
       stdout (snd (get_default_stats_writers malformed_run_options empty_world))
       = ([] ++ lines)%list.
Proof.
  apply (get_default_never_logs malformed_run_options empty_world _
           (fst (get_default_stats_writers malformed_run_options empty_world))).
  vm_compute. reflexivity.
Defined.

(** ** The loop over the global settings *)

Lemma dict_get_rename_same (p k : string) (d : dict) :
  str_keys d ->
  dict_get (PyStr (p +:+ k)) (List.map (rename p) d) = dict_get (PyStr k) d.
Proof.
  induction 1 as [|[k0 v0] d Hk0 Hs IH]; simpl; [reflexivity|].
  destruct (is_str_inv k0 Hk0) as [s ->]. simpl.
  destruct (String.eqb s k) eqn:E.
  - apply String.eqb_eq in E as ->. now rewrite String.eqb_refl.
  - apply String.eqb_neq in E.
    destruct (String.eqb (p +:+ s) (p +:+ k)) eqn:E'; [|exact IH].
    apply String.eqb_eq, String.app_inj in E'. contradiction.
Qed.

Lemma extract_setting_run (run_options s : pyval) (p : string) :
  getattr run_options p = Ok s ->
  exists sd, dict_wf sd
    /\ (forall k, dict_get (PyStr k) sd = public_attribute s k)
    /\ forall acc, extract_setting run_options acc p
                   = Ok (dict_update acc (List.map (rename (p +:+ "_")) sd)).
Proof.
  intros Hs. destruct (get_attributes_spec s) as (sd & Hsd & Wsd & Gsd).
  exists sd. split; [assumption | split; [assumption|]].
  intros acc. unfold extract_setting. rewrite Hs. cbn [mbind result_bind].
  rewrite Hsd. cbn [mbind result_bind]. now rewrite prefixed_map.
Qed.

(** Reading a key after the turn of the setting [p]. *)
Lemma extract_setting_get (run_options : pyval) (p key : string) (acc d : dict) :
  extract_setting run_options acc p = Ok d ->
  exists s, getattr run_options p = Ok s
    /\ (forall a, key = (p +:+ "_") +:+ a ->
          dict_get (PyStr key) d
          = match public_attribute s a with
            | Some v => Some v
            | None => dict_get (PyStr key) acc
            end)
    /\ (String.prefix (p +:+ "_") key = false ->
        dict_get (PyStr key) d = dict_get (PyStr key) acc).
Proof.
  intros H.
  destruct (getattr_cases run_options p) as [[s Hs] | Hs];
    [|unfold extract_setting in H; rewrite Hs in H; discriminate].
  exists s. split; [assumption|].
  destruct (extract_setting_run run_options s p Hs) as (sd & Wsd & Gsd & Hrun).
  rewrite Hrun in H. injection H as <-.
  rewrite dict_get_update by now apply rename_wf.
  split.
  - intros a ->. rewrite dict_get_rename_same by apply Wsd. now rewrite Gsd.
  - intros Hp. now rewrite dict_get_rename_other.
Qed.

Lemma settings_prefixes_apart (a : string) :
  String.prefix "env_settings_" ("engine_settings_" +:+ a) = false
  /\ String.prefix "torch_settings_" ("engine_settings_" +:+ a) = false
  /\ String.prefix "torch_settings_" ("env_settings_" +:+ a) = false.
Proof. repeat split; reflexivity. Qed.

(** X8: every public attribute [a] of a global settings object [p]
    (engine, env, torch) is in the flattened map under the key [p_a], with
    the string form of its value: the settings are written last and their
    three prefixes never meet. *)
Theorem settings_attributes_are_prefixed
    (run_options : pyval) (w w' : world) (config : dict)
    (p a : string) (s v : pyval) :
  flatten run_options w = (Ok config, w') ->
  p ∈ settings_list ->
  getattr run_options p = Ok s ->
  public_attribute s a = Some v ->
  dict_get (PyStr (p +:+ "_" +:+ a)) config = Some (PyStr (py_str v)).
Proof.
  intros (d & Hd & ->)%flatten_Ok Hp Hs Hv.
  pose proof (extract_wf run_options d Hd) as Wd.
  rewrite (to_json_serializable_map d Wd), dict_get_stringify by apply Wd.
  enough (dict_get (PyStr (p +:+ "_" +:+ a)) d = Some v) as -> by reflexivity.
  unfold extract in Hd.
  destruct (getattr run_options "behaviors") as [b| |]; try discriminate.
  cbv beta iota delta [mbind result_bind] in Hd.
  destruct (items b) as [entries| |]; try discriminate.
  destruct (extract_behaviors [] entries) as [d0| |]; try discriminate.
  unfold settings_list in Hd. cbn [extract_settings] in Hd.
  cbv beta iota delta [mbind result_bind] in Hd.
  destruct (extract_setting run_options d0 "engine_settings") as [d1| |] eqn:H1;
    try discriminate.
  destruct (extract_setting run_options d1 "env_settings") as [d2| |] eqn:H2;
    try discriminate.
  destruct (extract_setting run_options d2 "torch_settings") as [d3| |] eqn:H3;
    try discriminate.
  injection Hd as <-.
  destruct (settings_prefixes_apart a) as (P1 & P2 & P3).
  destruct (extract_setting_get run_options "engine_settings" (p +:+ "_" +:+ a) d0 d1 H1)
    as (s1 & Hs1 & G1 & _).
  destruct (extract_setting_get run_options "env_settings" (p +:+ "_" +:+ a) d1 d2 H2)
    as (s2 & Hs2 & G2 & K2).
  destruct (extract_setting_get run_options "torch_settings" (p +:+ "_" +:+ a) d2 d3 H3)
    as (s3 & Hs3 & G3 & K3).
  unfold settings_list in Hp.
  repeat (apply elem_of_cons in Hp as [-> | Hp]); [| | | now apply elem_of_nil in Hp].
  - rewrite K3 by exact P2. rewrite K2 by exact P1.
    rewrite (G1 a eq_refl). rewrite Hs in Hs1. injection Hs1 as <-. now rewrite Hv.
  - rewrite K3 by exact P3.
    rewrite (G2 a eq_refl). rewrite Hs in Hs2. injection Hs2 as <-. now rewrite Hv.
  - rewrite (G3 a eq_refl). rewrite Hs in Hs3. injection Hs3 as <-. now rewrite Hv.
Qed.

Lemma settings_attributes_are_prefixed_witness :
  exists config,
    fst (flatten (sample_run_options true) empty_world) = Ok config
    /\ dict_get (PyStr "engine_settings_width") config = Some (PyStr "84").
Proof.
  eexists. split; [vm_compute; reflexivity|].
  eapply (settings_attributes_are_prefixed (sample_run_options true) empty_world _ _
            "engine_settings" "width" _ (PyInt 84)).
  - vm_compute. reflexivity.
  - apply elem_of_cons. now left.
  - reflexivity.
  - reflexivity.
Defined.

(** X9: with several behaviors the last one wins: a hyperparameter of the
    last behavior that the behavior itself does not shadow is in the
    flattened map with its own value, whatever the earlier behaviors held
    under that name. *)
Theorem last_behavior_hyperparameters_win
    (run_options behavior_settings hyperparameters : pyval) (w w' : world)
    (config earlier : dict) (behavior_name : pyval) (k : string) (vh : pyval) :
  flatten run_options w = (Ok config, w') ->
  getattr run_options "behaviors"
  = Ok (PyDict (earlier ++ [(behavior_name, behavior_settings)])%list) ->
  getattr behavior_settings "hyperparameters" = Ok hyperparameters ->
  public_attribute hyperparameters k = Some vh ->
  public_attribute behavior_settings k = None ->
  clear_of_settings k = true ->
  dict_get (PyStr k) config = Some (PyStr (py_str vh)).
Proof.
  intros Hflat Hb Hhp Hvh Hvb Hk.
  apply flatten_Ok in Hflat as (d & Hd & ->).
  pose proof (extract_wf run_options d Hd) as Wd.
  rewrite (to_json_serializable_map d Wd), dict_get_stringify by apply Wd.
  enough (dict_get (PyStr k) d = Some vh) as -> by reflexivity.
  unfold extract in Hd. rewrite Hb in Hd.
  cbv beta iota delta [mbind result_bind items] in Hd.
  rewrite extract_behaviors_app in Hd.
  cbv beta iota delta [mbind result_bind] in Hd.
  destruct (extract_behaviors_cases earlier [] dict_wf_nil) as [[_ (d1 & H1 & Wd1)] | [_ H1]];
    rewrite H1 in Hd; [|discriminate].
  destruct (extract_behavior_run d1 behavior_settings hyperparameters Hhp)
    as (hpd & bd & _ & _ & Wh & Wb & Gh & Gb & Hrun).
  cbn [extract_behaviors] in Hd. rewrite Hrun in Hd.
  cbv beta iota delta [mbind result_bind] in Hd.
  assert (Wd2 : dict_wf (dict_update (dict_update d1 hpd) bd)).
  { apply update_wf; [apply Wb|]. apply update_wf; [apply Wh | assumption]. }
  destruct (extract_settings_cases run_options settings_list _ Wd2)
    as [[_ (d3 & H3 & _ & Hkeep)] | [_ H3]]; rewrite H3 in Hd; [|discriminate].
  injection Hd as <-. rewrite Hkeep by now apply clear_of_settings_spec.
  rewrite dict_get_update by assumption. rewrite Gb, Hvb.
  rewrite dict_get_update by assumption. now rewrite Gh, Hvh.
Qed.

Lemma last_behavior_hyperparameters_win_witness :
  exists config,
    fst (flatten clash_run_options empty_world) = Ok config
    /\ dict_get (PyStr "batch_size") config = Some (PyStr "64").
Proof.
  eexists. split; [vm_compute; reflexivity|].
  eapply (last_behavior_hyperparameters_win clash_run_options clash_settings
            clash_hyperparameters empty_world _ _ [(PyStr "3DBall", ball_settings)]
            (PyStr "Walker") "batch_size" (PyInt 64)).
  - vm_compute. reflexivity.
  - reflexivity.
  - reflexivity.
  - reflexivity.
  - reflexivity.
  - reflexivity.
Defined.

(** ** The loop never takes back *)

Lemma plugin_turn_extends (run_options : pyval) (acc l : list StatsWriter)
    (ep : EntryPoint) (w w' : world) :
  plugin_turn run_options acc ep w = (Ok l, w') -> exists more, l = (acc ++ more)%list.
Proof.
  destruct (initialize_plugin run_options ep w) as [[found|e|] w1] eqn:E.
  - rewrite (plugin_turn_Ok _ _ _ _ _ _ E). intros [= <- _]. eauto.
  - rewrite (plugin_turn_Raise _ _ _ _ _ _ E). intros [= <- _].
    exists []. now rewrite app_nil_r.
  - unfold plugin_turn, try_except, mbind, M_bind. rewrite E. discriminate.
Qed.

Lemma plugin_loop_extends (run_options : pyval) (eps : list EntryPoint) :
  forall acc l w w',
    plugin_loop run_options acc eps w = (Ok l, w') -> exists more, l = (acc ++ more)%list.
Proof.
  induction eps as [|ep eps IH]; intros acc l w w'; simpl.
  - intros [= <- _]. exists []. now rewrite app_nil_r.
  - intros (acc' & w1 & Hturn & Hloop)%bind_Ok.
    apply plugin_turn_extends in Hturn as [m1 ->].
    apply IH in Hloop as [m2 ->]. exists (m1 ++ m2)%list. now rewrite app_assoc.
Qed.

(** X10: the loop never takes back: what the first entry points added
    stays at the front of the result, in order, whatever the entry points
    after them do. *)
Theorem later_entry_points_keep_earlier_sinks
    (key : string) (registry : gmap string (list EntryPoint)) (run_options : pyval)
    (pre post : list EntryPoint) (acc l : list StatsWriter) (w w1 w' : world) :
  registry !! key = Some (pre ++ post)%list ->
  plugin_loop run_options [] pre w = (Ok acc, w1) ->
  register_stats_writer_plugins key registry run_options w = (Ok l, w') ->
  exists more, l = (acc ++ more)%list
               /\ plugin_loop run_options acc post w1 = (Ok (acc ++ more)%list, w').
Proof.
  intros Hkey Hpre.
  rewrite (register_found key registry run_options _ w Hkey).
  rewrite plugin_loop_app, (bind_run_Ok _ _ _ _ _ Hpre). intros H.
  destruct (plugin_loop_extends _ _ _ _ _ _ H) as [more ->]. eauto.
Qed.

Lemma later_entry_points_keep_earlier_sinks_witness :
  exists more,
    tracker_sinks = (tracker_sinks ++ more)%list
    /\ plugin_loop PyNone tracker_sinks [raising_entry_point]
         (snd (plugin_loop PyNone [] [tracker_entry_point] empty_world))
       = (Ok (tracker_sinks ++ more)%list,
          snd (register_stats_writer_plugins sample_key
                 {[ sample_key := [tracker_entry_point; raising_entry_point] ]}
                 PyNone empty_world)).
Proof.
  apply (later_entry_points_keep_earlier_sinks sample_key
           {[ sample_key := [tracker_entry_point; raising_entry_point] ]} PyNone
           [tracker_entry_point] [raising_entry_point] tracker_sinks tracker_sinks
           empty_world).
  - reflexivity.
  - vm_compute. reflexivity.
  - vm_compute. reflexivity.
Defined.

Lemma all_fail_outcomes (run_options : pyval) (eps : list EntryPoint) :
  Forall (always_fails run_options) eps ->
  Forall2 (outcome run_options) eps ((fun _ => []) <$> eps).
Proof.
  induction 1 as [|ep eps Hep Heps IH]; csimpl; [apply List.Forall2_nil|].
  apply List.Forall2_cons; [|exact IH]. right. split; [assumption | reflexivity].
Qed.

Lemma concat_nils {A B : Type} (l : list A) :
  concat ((fun _ => @nil B) <$> l) = [].
Proof. induction l as [|x l IH]; [reflexivity | exact IH]. Qed.

(** X11: with the namespace key present there is no fallback to the
    defaults: when every registered entry point fails (or none is
    registered) the result is the empty list, and with none registered the
    world is untouched. *)
Theorem no_fallback_when_every_plugin_fails
    (key : string) (registry : gmap string (list EntryPoint)) (run_options : pyval)
    (eps : list EntryPoint) (w : world) :
  registry !! key = Some eps ->
  Forall (always_fails run_options) eps ->
  exists w', register_stats_writer_plugins key registry run_options w = (Ok [], w')
             /\ (eps = [] -> w' = w).
Proof.
  intros Hkey Hall. rewrite (register_found key registry run_options eps w Hkey).
  destruct (plugin_loop_outcomes run_options eps _ (all_fail_outcomes _ _ Hall) [] w)
    as [w' Hw'].
  rewrite concat_nils in Hw'. exists w'. split; [exact Hw'|].
  intros ->. simpl in Hw'. now injection Hw' as <-.
Qed.

Lemma no_fallback_when_every_plugin_fails_witness :
  exists w',
    register_stats_writer_plugins sample_key
      {[ sample_key := [broken_entry_point; raising_entry_point] ]}
      (sample_run_options true) empty_world
    = (Ok [], w')
    /\ ([broken_entry_point; raising_entry_point] = [] -> w' = empty_world).
Proof.
  apply (no_fallback_when_every_plugin_fails sample_key
           {[ sample_key := [broken_entry_point; raising_entry_point] ]}
           (sample_run_options true) [broken_entry_point; raising_entry_point]).
  - reflexivity.
  - repeat apply List.Forall_cons; [| | apply List.Forall_nil].
    + apply broken_always_fails.
    + apply raising_always_fails.
Defined.

(** ** Returned values without a length *)




(** ** The defaults, by either way *)

Lemma get_default_same_sinks (run_options : pyval) (w1 w1' w2 w2' : world)
    (l1 l2 : list StatsWriter) :
  get_default_stats_writers run_options w1 = (Ok l1, w1') ->
  get_default_stats_writers run_options w2 = (Ok l2, w2') ->
  l1 = l2.
Proof.
  intros (cs1 & p1 & r1 & c1 & ? & ? & Hcs1 & Hp1 & Hr1 & Hc1 & Hf1 & ->)%get_default_Ok
         (cs2 & p2 & r2 & c2 & ? & ? & Hcs2 & Hp2 & Hr2 & Hc2 & Hf2 & ->)%get_default_Ok.
  rewrite Hcs1 in Hcs2. injection Hcs2 as <-.
  rewrite Hp1 in Hp2. injection Hp2 as <-.
  rewrite Hr1 in Hr2. injection Hr2 as <-.
  rewrite Hc1 in Hc2. injection Hc2 as <-.
  apply flatten_Ok in Hf1 as (d1 & Hd1 & ->). apply flatten_Ok in Hf2 as (d2 & Hd2 & ->).
  rewrite Hd1 in Hd2. now injection Hd2 as <-.
Qed.

(** X14: on a fully populated RunOptions the fallback and a registry
    whose only entry point loads the default factory return the same four
    sinks. *)
Theorem fallback_equals_default_plugin
    (key : string) (absent present : gmap string (list EntryPoint))
    (ep : EntryPoint) (run_options : pyval) (w1 w2 : world) :
  key ∉ dom absent ->
  present !! key = Some [ep] ->
  loads_default ep ->
  fully_populated run_options = true ->
  exists l w1' w2',
    register_stats_writer_plugins key absent run_options w1 = (Ok l, w1')
    /\ register_stats_writer_plugins key present run_options w2 = (Ok l, w2')
    /\ length l = 4.
Proof.
  intros Habsent Hpresent Hdef Hfull.
  rewrite (register_absent key absent run_options w1 Habsent).
  rewrite (register_found key present run_options [ep] w2 Hpresent).
  destruct (get_default_total run_options
              (logged WARNING (missing_entry_points_message key) w1) Hfull)
    as (l & w1' & Hl).
  exists l, w1'.
  assert (Hwell : well_behaved run_options ep l).
  { intros w. destruct (get_default_total run_options w Hfull) as (l' & w' & Hl').
    rewrite (get_default_same_sinks _ _ _ _ _ _ _ Hl' Hl) in Hl'.
    exists default_plugin, w, (Writers l), w'. split; [apply Hdef | split; [|reflexivity]].
    unfold default_plugin. now rewrite (bind_run_Ok _ _ _ _ _ Hl'). }
  destruct (plugin_loop_outcomes run_options [ep] [l]) with (acc := @nil StatsWriter) (w := w2)
    as [w2' Hw2'].
  { apply List.Forall2_cons; [now left | apply List.Forall2_nil]. }
  exists w2'. split; [exact Hl | split].
  - rewrite Hw2'. simpl. now rewrite app_nil_r.
  - apply get_default_Ok in Hl as (? & ? & ? & ? & ? & ? & _ & _ & _ & _ & _ & ->).
    reflexivity.
Qed.

Lemma fallback_equals_default_plugin_witness :
  exists l w1' w2',
    register_stats_writer_plugins sample_key ∅ (sample_run_options true) empty_world
    = (Ok l, w1')
    /\ register_stats_writer_plugins sample_key {[ sample_key := [default_entry_point] ]}
         (sample_run_options true) empty_world
       = (Ok l, w2')
    /\ length l = 4.
Proof.
  apply (fallback_equals_default_plugin sample_key ∅
           {[ sample_key := [default_entry_point] ]} default_entry_point).
  - rewrite dom_empty_L. apply not_elem_of_empty.
  - reflexivity.
  - intros w. reflexivity.
  - reflexivity.
Defined.

(** ** No name is lost *)

Lemma update_keeps_key (k : string) (other d : dict) :
  dict_wf other ->
  is_Some (dict_get (PyStr k) d) -> is_Some (dict_get (PyStr k) (dict_update d other)).
Proof.
  intros Ho Hd. rewrite dict_get_update by assumption.
  destruct (dict_get (PyStr k) other); [eauto | exact Hd].
Qed.

Lemma update_adds_key (k : string) (other d : dict) :
  dict_wf other ->
  is_Some (dict_get (PyStr k) other) -> is_Some (dict_get (PyStr k) (dict_update d other)).
Proof.
  intros Ho [v Hv]. rewrite dict_get_update by assumption. rewrite Hv. eauto.
Qed.

Lemma extract_behavior_keys (acc d : dict) (bs : pyval) (k : string) :
  extract_behavior acc bs = Ok d ->
  (is_Some (dict_get (PyStr k) acc) -> is_Some (dict_get (PyStr k) d))
  /\ (is_Some (public_attribute bs k) -> is_Some (dict_get (PyStr k) d))
  /\ (forall hp, getattr bs "hyperparameters" = Ok hp ->
        is_Some (public_attribute hp k) -> is_Some (dict_get (PyStr k) d)).
Proof.
  intros H.
  destruct (getattr_cases bs "hyperparameters") as [[hp Hhp] | Hhp];
    [|unfold extract_behavior in H; rewrite Hhp in H; discriminate].
  destruct (extract_behavior_run acc bs hp Hhp)
    as (hpd & bd & _ & _ & Wh & Wb & Gh & Gb & Hrun).
  rewrite Hrun in H. injection H as <-. split; [|split].
  - intros Hk. apply update_keeps_key; [assumption|]. now apply update_keeps_key.
  - intros Hk. apply update_adds_key; [assumption|]. now rewrite Gb.
  - intros hp' Hhp' Hk. rewrite Hhp in Hhp'. injection Hhp' as <-.
    apply update_keeps_key; [assumption|]. apply update_adds_key; [assumption|].
    now rewrite Gh.
Qed.

Lemma extract_behaviors_keeps (entries : dict) (k : string) :
  forall acc d, extract_behaviors acc entries = Ok d ->
    is_Some (dict_get (PyStr k) acc) -> is_Some (dict_get (PyStr k) d).
Proof.
  induction entries as [|[bn bs] entries IH]; intros acc d; simpl.
  - now intros [= <-].
  - destruct (extract_behavior acc bs) as [d1| |] eqn:H1; try discriminate.
    cbv beta iota delta [mbind result_bind]. intros H Hk.
    apply (IH d1 d H). exact (proj1 (extract_behavior_keys acc d1 bs k H1) Hk).
Qed.

Lemma extract_settings_keeps (run_options : pyval) (names : list string) (k : string) :
  forall acc d, extract_settings run_options acc names = Ok d ->
    is_Some (dict_get (PyStr k) acc) -> is_Some (dict_get (PyStr k) d).
Proof.
  induction names as [|p names IH]; intros acc d; simpl.
  - now intros [= <-].
  - destruct (extract_setting run_options acc p) as [d1| |] eqn:H1; try discriminate.
    cbv beta iota delta [mbind result_bind]. intros H Hk.
    apply (IH d1 d H).
    destruct (getattr_cases run_options p) as [[s Hs] | Hs];
      [|unfold extract_setting in H1; rewrite Hs in H1; discriminate].
    destruct (extract_setting_run run_options s p Hs) as (sd & Wsd & _ & Hrun).
    rewrite Hrun in H1. injection H1 as <-.
    apply update_keeps_key; [now apply rename_wf | assumption].
Qed.

(** X15: the flattening loses no name: every public attribute of every
    behavior, and of its hyperparameters, is a key of the returned map
    (with the value some behavior or setting wrote last). *)
Theorem flatten_loses_no_name
    (run_options : pyval) (w w' : world) (config entries : dict)
    (behavior_name behavior_settings : pyval) (k : string) :
  flatten run_options w = (Ok config, w') ->
  getattr run_options "behaviors" = Ok (PyDict entries) ->
  (behavior_name, behavior_settings) ∈ entries ->
  (is_Some (public_attribute behavior_settings k)
   \/ exists hp, getattr behavior_settings "hyperparameters" = Ok hp
                 /\ is_Some (public_attribute hp k)) ->
  exists v, dict_get (PyStr k) config = Some (PyStr v).
Proof.
  intros (d & Hd & ->)%flatten_Ok Hb Hin Hk.
  pose proof (extract_wf run_options d Hd) as Wd.
  rewrite (to_json_serializable_map d Wd), dict_get_stringify by apply Wd.
  enough (is_Some (dict_get (PyStr k) d)) as [v ->] by (simpl; eauto).
  unfold extract in Hd. rewrite Hb in Hd.
  cbv beta iota delta [mbind result_bind items] in Hd.
  destruct (extract_behaviors [] entries) as [d1| |] eqn:H1; try discriminate.
  apply (extract_settings_keeps run_options settings_list k d1 d Hd).
  clear Hd Wd Hb. revert H1. generalize (@nil (pyval * pyval)) as acc.
  induction entries as [|[bn bs] entries IH]; intros acc; [now apply elem_of_nil in Hin|].
  simpl. destruct (extract_behavior acc bs) as [d0| |] eqn:H0; try discriminate.
  cbv beta iota delta [mbind result_bind]. intros H1.
  apply elem_of_cons in Hin as [[= <- <-] | Hin].
  - apply (extract_behaviors_keeps entries k d0 d1 H1).
    destruct (extract_behavior_keys acc d0 behavior_settings k H0) as (_ & Hown & Hhyp).
    destruct Hk as [Hk | (hp & Hhp & Hk)]; [now apply Hown | now apply (Hhyp hp)].
  - exact (IH Hin d0 H1).
Qed.

Lemma flatten_loses_no_name_witness :
  exists v config,
    fst (flatten clash_run_options empty_world) = Ok config
    /\ dict_get (PyStr "learning_rate") config = Some (PyStr v).
Proof.
  destruct (flatten_loses_no_name clash_run_options empty_world
              (snd (flatten clash_run_options empty_world))
              (match fst (flatten clash_run_options empty_world) with
               | Ok c => c | _ => [] end)
              [(PyStr "3DBall", ball_settings); (PyStr "Walker", clash_settings)]
              (PyStr "3DBall") ball_settings "learning_rate") as [v Hv].
  - vm_compute. reflexivity.
  - reflexivity.
  - apply elem_of_cons. now left.
  - right. exists ppo_hyperparameters. split; [reflexivity | vm_compute; eauto].
  - exists v. eexists. split; [vm_compute; reflexivity | exact Hv].
Defined.
